(** * TaskFlow client: the data-synchronisation layer

    A shallow embedding of the client code of the task-management
    application:

    - [src/services/tasks.ts]   the tasks resource service ([tasksService]);
    - [src/store/taskSlice.ts]  the task store and its reducer;
    - [src/store/authSlice.ts]  the auth store ([setCredentials], [logOut]);
    - [src/services/api.ts] and [src/lib/api.ts]  the two axios adapters
      ([api], reading the key "token", and [apiClient], reading "authToken");
    - [src/components/tasks/TasksList.tsx] and [src/hooks/useTasks.ts]  the
      filter and pagination controls that dispatch [setFilters];
    - [src/middleware.ts]  the route protection.

    The store is embedded twice: [taskSlice] over the states and payloads
    its types declare, and [runtime] over the values it really holds, which
    differ once a fetch of the list has succeeded.  The service is
    embedded over the integers ([tasksService]) and over any numbers
    ([numbers]).

    Conventions.  A TypeScript optional field [x?: T] is an [option T]
    ([None] is [undefined]); [T | null] is an [option T] too.  A [number]
    that holds a page number or a count is a [Z]; [String(n)] is then the
    decimal numeral of [n].  JavaScript strings are [string]s, read as
    UTF-8 bytes.  [localStorage] and a header bag are finite maps from
    strings to strings. *)

From stdpp Require Import base option list strings pretty gmap fin_maps.
From Stdlib Require Import ZArith Lia Ascii.

Local Open Scope string_scope.
Local Open Scope Z_scope.

#[local] Set Warnings "-clear-no-such-hyp".

(** ** Types ([src/types/task.ts], [src/types/api.ts]) *)

Module Types.

Inductive Priority := low | medium | high.

(** A [Priority] is the string literal of its name. *)
Definition Priority_str (p : Priority) : string :=
  match p with low => "low" | medium => "medium" | high => "high" end.

Record Task := {
  _id : string;
  title : string;
  description : option string;
  completed : bool;
  priority : Priority;
  dueDate : option string;
  createdAt : string;
  updatedAt : string;
}.

Record TaskFilters := {
  f_completed : option bool;
  f_priority : option Priority;
  f_page : option Z;
  f_limit : option Z;
}.

Record Pagination := {
  page : Z;
  limit : Z;
  total : Z;
  totalPages : Z;
}.

Record PaginatedResponse := {
  r_data : list Task;
  r_total : Z;
  r_page : Z;
  r_limit : Z;
  r_totalPages : Z;
}.

Record TaskState := {
  tasks : list Task;
  currentTask : option Task;
  isLoading : bool;
  error : option string;
  filters : TaskFilters;
  pagination : Pagination;
}.

End Types.
Export Types.

(** ** JavaScript primitives used by the service *)

Module JS.

(** [String(b)] for a boolean. *)
Definition String_bool (b : bool) : string := if b then "true" else "false".

(** [String(n)] for an integer [n] of absolute value below [10^21], where
    JavaScript prints the plain decimal numeral.  (From [1e21] on it prints
    exponent notation, and a [number] may also be a fraction or [NaN]:
    [numbers] below embeds the service over numbers as they are.) *)
Definition String_number (n : Z) : string := pretty n.

(** Truthiness of an integer: [0] is the falsy one.  ([NaN], the other
    falsy number, is no integer; see [numbers] below.) *)
Definition truthy_number (n : Z) : bool := negb (n =? 0).

(** Truthiness of a string: only the empty string is falsy. *)
Definition truthy_string (s : string) : bool :=
  match s with EmptyString => false | String _ _ => true end.

(** [a || b] on strings where [a] may be [undefined]. *)
Definition or_else (a : option string) (b : string) : string :=
  match a with
  | Some s => if truthy_string s then s else b
  | None => b
  end.

End JS.

(** ** [URLSearchParams]: an ordered list of name/value pairs, serialised
    as [application/x-www-form-urlencoded] *)

Module URLSearchParams.

Definition t := list (string * string).

Definition empty : t := [].

(** [params.append(name, value)] adds the pair at the end. *)
Definition append (params : t) (name value : string) : t :=
  (params ++ [(name, value)])%list.

Definition names (params : t) : list string := fst <$> params.

Definition in_range (lo hi : N) (c : ascii) : bool :=
  let n := N_of_ascii c in (lo <=? n)%N && (n <=? hi)%N.

(** Bytes left as they are: ASCII alphanumerics and [* - . _]. *)
Definition is_plain (c : ascii) : bool :=
  in_range 48 57 c || in_range 65 90 c || in_range 97 122 c
  || (N_of_ascii c =? 42)%N || (N_of_ascii c =? 45)%N
  || (N_of_ascii c =? 46)%N || (N_of_ascii c =? 95)%N.

Definition hex_digit (n : N) : ascii :=
  if (n <? 10)%N then ascii_of_N (48 + n) else ascii_of_N (55 + n).

Definition percent_encode (c : ascii) : string :=
  let n := N_of_ascii c in
  String "%" (String (hex_digit (n / 16)) (String (hex_digit (n mod 16)) "")).

Definition encode_byte (c : ascii) : string :=
  if is_plain c then String c ""
  else if (N_of_ascii c =? 32)%N then "+"
  else percent_encode c.

Fixpoint encode (s : string) : string :=
  match s with
  | EmptyString => ""
  | String c s' => encode_byte c +:+ encode s'
  end.

Definition pair_str (p : string * string) : string :=
  encode p.1 +:+ "=" +:+ encode p.2.

(** [params.toString()]: the pairs joined by [&]. *)
Fixpoint toString (params : t) : string :=
  match params with
  | [] => ""
  | [p] => pair_str p
  | p :: rest => pair_str p +:+ "&" +:+ toString rest
  end.

End URLSearchParams.

(** ** The tasks service ([src/services/tasks.ts]) *)

Module tasksService.

Import JS.

(** The four guarded [params.append] calls of [getTasks], in source order.
    [filters?.x] is [undefined] when [filters] itself is. *)
Definition getTasks_params (filters : option TaskFilters) : URLSearchParams.t :=
  let params := URLSearchParams.empty in
  let params :=
    match filters ≫= f_completed with
    | Some c => URLSearchParams.append params "completed" (String_bool c)
    | None => params
    end in
  let params :=
    match filters ≫= f_priority with
    | Some p =>
        if truthy_string (Priority_str p)
        then URLSearchParams.append params "priority" (Priority_str p)
        else params
    | None => params
    end in
  let params :=
    match filters ≫= f_page with
    | Some n =>
        if truthy_number n
        then URLSearchParams.append params "page" (String_number n)
        else params
    | None => params
    end in
  let params :=
    match filters ≫= f_limit with
    | Some n =>
        if truthy_number n
        then URLSearchParams.append params "limit" (String_number n)
        else params
    | None => params
    end in
  params.

Definition getTasks_query (filters : option TaskFilters) : string :=
  URLSearchParams.toString (getTasks_params filters).

(** The URL handed to [api.get]. *)
Definition getTasks_url (filters : option TaskFilters) : string :=
  "/api/tasks?" +:+ getTasks_query filters.

Definition getTask_url (id : string) : string := "/api/tasks/" +:+ id.

End tasksService.

(** ** The task store ([src/store/taskSlice.ts]) *)

Module taskSlice.

Definition initialState : TaskState :=
  {| tasks := []; currentTask := None; isLoading := false; error := None;
     filters := {| f_completed := None; f_priority := None;
                   f_page := Some 1; f_limit := Some 10 |};
     pagination := {| page := 1; limit := 10; total := 0; totalPages := 0 |} |}.

(** Assignments to one field of the draft state. *)
Definition set_tasks (v : list Task) (s : TaskState) : TaskState :=
  {| tasks := v; currentTask := currentTask s; isLoading := isLoading s;
     error := error s; filters := filters s; pagination := pagination s |}.
Definition set_currentTask (v : option Task) (s : TaskState) : TaskState :=
  {| tasks := tasks s; currentTask := v; isLoading := isLoading s;
     error := error s; filters := filters s; pagination := pagination s |}.
Definition set_isLoading (v : bool) (s : TaskState) : TaskState :=
  {| tasks := tasks s; currentTask := currentTask s; isLoading := v;
     error := error s; filters := filters s; pagination := pagination s |}.
Definition set_error (v : option string) (s : TaskState) : TaskState :=
  {| tasks := tasks s; currentTask := currentTask s; isLoading := isLoading s;
     error := v; filters := filters s; pagination := pagination s |}.
Definition set_filters (v : TaskFilters) (s : TaskState) : TaskState :=
  {| tasks := tasks s; currentTask := currentTask s; isLoading := isLoading s;
     error := error s; filters := v; pagination := pagination s |}.
Definition set_pagination (v : Pagination) (s : TaskState) : TaskState :=
  {| tasks := tasks s; currentTask := currentTask s; isLoading := isLoading s;
     error := error s; filters := filters s; pagination := v |}.

(** [{ ...a, ...b }] on filter objects: a field of [b] that is present
    overrides the field of [a]. *)
Definition spread (a b : TaskFilters) : TaskFilters :=
  {| f_completed := from_option Some (f_completed a) (f_completed b);
     f_priority := from_option Some (f_priority a) (f_priority b);
     f_page := from_option Some (f_page a) (f_page b);
     f_limit := from_option Some (f_limit a) (f_limit b) |}.

(** [Array.prototype.findIndex]: the index of the first element that
    satisfies [p], scanning from index [k]; [-1] when there is none. *)
Fixpoint findIndex_from {A} (p : A → bool) (k : Z) (l : list A) : Z :=
  match l with
  | [] => -1
  | x :: l' => if p x then k else findIndex_from p (k + 1) l'
  end.

Definition findIndex {A} (p : A → bool) (l : list A) : Z := findIndex_from p 0 l.

(** [task._id === id] *)
Definition has_id (id : string) (task : Task) : bool := String.eqb (_id task) id.

(** [state.currentTask?._id === id] ([undefined === id] is false). *)
Definition current_has_id (id : string) (s : TaskState) : bool :=
  match currentTask s with
  | Some task => has_id id task
  | None => false
  end.

(** The five async thunks, and the payload each one's [fulfilled] case
    reducer is typed to receive.  (What the [fetchTasks] thunk really
    returns is the AxiosResponse; [runtime] below embeds the store with
    that payload.) *)
Inductive Thunk := fetchTasks | fetchTask | createTask | updateTask | deleteTask.

Inductive Payload :=
  | fetchTasks_payload (response : PaginatedResponse)
  | fetchTask_payload (task : Task)
  | createTask_payload (task : Task)
  | updateTask_payload (task : Task)
  | deleteTask_payload (id : string).

Definition thunk_of (p : Payload) : Thunk :=
  match p with
  | fetchTasks_payload _ => fetchTasks
  | fetchTask_payload _ => fetchTask
  | createTask_payload _ => createTask
  | updateTask_payload _ => updateTask
  | deleteTask_payload _ => deleteTask
  end.

Inductive Action :=
  | setFilters (payload : TaskFilters)
  | clearCurrentTask
  | clearError
  | pending (k : Thunk)
  | fulfilled (payload : Payload)
  | rejected (k : Thunk) (payload : string).

(** The case reducers, one per [addCase]. *)
Definition on_pending (s : TaskState) : TaskState :=
  set_error None (set_isLoading true s).

Definition on_rejected (payload : string) (s : TaskState) : TaskState :=
  set_error (Some payload) (set_isLoading false s).

Definition pagination_of (r : PaginatedResponse) : Pagination :=
  {| page := r_page r; limit := r_limit r;
     total := r_total r; totalPages := r_totalPages r |}.

Definition fetchTasks_fulfilled (r : PaginatedResponse) (s : TaskState) : TaskState :=
  let s := set_isLoading false s in
  let s := set_tasks (r_data r) s in
  set_pagination (pagination_of r) s.

Definition fetchTask_fulfilled (task : Task) (s : TaskState) : TaskState :=
  let s := set_isLoading false s in
  set_currentTask (Some task) s.

(** [state.tasks.unshift(payload)] *)
Definition createTask_fulfilled (task : Task) (s : TaskState) : TaskState :=
  let s := set_isLoading false s in
  set_tasks (task :: tasks s) s.

Definition updateTask_fulfilled (task : Task) (s : TaskState) : TaskState :=
  let s := set_isLoading false s in
  let index := findIndex (has_id (_id task)) (tasks s) in
  let s :=
    if negb (index =? -1)
    then set_tasks (<[Z.to_nat index := task]> (tasks s)) s
    else s in
  if current_has_id (_id task) s then set_currentTask (Some task) s else s.

Definition deleteTask_fulfilled (id : string) (s : TaskState) : TaskState :=
  let s := set_isLoading false s in
  let s := set_tasks (filter (λ task, negb (has_id id task) = true) (tasks s)) s in
  if current_has_id id s then set_currentTask None s else s.

Definition on_fulfilled (p : Payload) (s : TaskState) : TaskState :=
  match p with
  | fetchTasks_payload r => fetchTasks_fulfilled r s
  | fetchTask_payload task => fetchTask_fulfilled task s
  | createTask_payload task => createTask_fulfilled task s
  | updateTask_payload task => updateTask_fulfilled task s
  | deleteTask_payload id => deleteTask_fulfilled id s
  end.

Definition reducer (s : TaskState) (a : Action) : TaskState :=
  match a with
  | setFilters payload => set_filters (spread (filters s) payload) s
  | clearCurrentTask => set_currentTask None s
  | clearError => set_error None s
  | pending _ => on_pending s
  | fulfilled p => on_fulfilled p s
  | rejected _ payload => on_rejected payload s
  end.

(** Dispatching a sequence of actions, oldest first. *)
Definition dispatch_all (s : TaskState) (acts : list Action) : TaskState :=
  foldl reducer s acts.

End taskSlice.

(** ** The browser environment

    [typeof window !== "undefined"] holds exactly when there is a [Window];
    [localStorage] and [window.location] exist only then.  The toast queue
    of [sonner] lives outside the window. *)

Module Browser.

Record Window := {
  localStorage : gmap string string;
  location_href : string;
}.

Record Env := {
  window : option Window;
  toasts : list string;
}.

Definition getItem (key : string) (w : Window) : option string :=
  localStorage w !! key.

Definition setItem (key value : string) (w : Window) : Window :=
  {| localStorage := <[key := value]> (localStorage w);
     location_href := location_href w |}.

Definition removeItem (key : string) (w : Window) : Window :=
  {| localStorage := delete key (localStorage w);
     location_href := location_href w |}.

Definition navigate (href : string) (w : Window) : Window :=
  {| localStorage := localStorage w; location_href := href |}.

Definition with_window (f : Window → Window) (env : Env) : Env :=
  {| window := f <$> window env; toasts := toasts env |}.

(** [toast.error(message)] *)
Definition toast_error (message : string) (env : Env) : Env :=
  {| window := window env; toasts := (toasts env ++ [message])%list |}.

(** What is stored under [key] in client storage, if there is a storage. *)
Definition stored (key : string) (env : Env) : option string :=
  window env ≫= getItem key.

Definition location (env : Env) : option string :=
  location_href <$> window env.

End Browser.
Export Browser.

(** ** The axios adapters ([src/services/api.ts], [src/lib/api.ts]) *)

Module axios.

Record Config := {
  method : string;
  url : string;
  headers : gmap string string;
  data : option string;
}.

(** The parts of a response the adapters read: [status] and
    [data?.message]. *)
Record Response := {
  status : Z;
  message : option string;
}.

(** [error.response] is [undefined] for a transport failure or a timeout. *)
Record AxiosError := {
  code : string;
  response : option Response;
}.

(** How a promise settles. *)
Inductive Settled (A E : Type) :=
  | Resolved (a : A)
  | Rejected (e : E).
Arguments Resolved {A E} a.
Arguments Rejected {A E} e.

Definition set_header (name value : string) (config : Config) : Config :=
  {| method := method config; url := url config;
     headers := <[name := value]> (headers config); data := data config |}.

(** The [headers] option of [axios.create] in both adapters. *)
Definition default_headers : gmap string string :=
  {[ "Content-Type" := "application/json" ]}.

(** The config of a call [api.get(url)], [api.post(url, data)], ...: the
    instance defaults and the call's own arguments. *)
Definition create_config (method url : string) (data : option string) : Config :=
  {| method := method; url := url; headers := default_headers; data := data |}.

Section Adapter.

(** The storage key the request interceptor reads. *)
Variable tokenKey : string.

(** The fulfilled handler of [interceptors.request.use]. *)
Definition request_interceptor (env : Env) (config : Config) : Config :=
  match window env with
  | Some w =>
      match getItem tokenKey w with
      | Some token =>
          if JS.truthy_string token
          then set_header "Authorization" ("Bearer " +:+ token) config
          else config
      | None => config
      end
  | None => config
  end.

(** A request as the adapter sends it. *)
Definition build_request (env : Env) (method url : string)
    (data : option string) : Config :=
  request_interceptor env (create_config method url data).

End Adapter.

End axios.
Export axios.

(** [src/services/api.ts]: key "token", with the response interceptor. *)
Module api.

Definition tokenKey : string := "token".

Definition request_interceptor := axios.request_interceptor tokenKey.
Definition build_request := axios.build_request tokenKey.

(** [error.response?.status === 401] *)
Definition is_401 (err : AxiosError) : bool :=
  match response err with
  | Some r => status r =? 401
  | None => false
  end.

(** [error.response?.data?.message || "Something went wrong"] *)
Definition error_message (err : AxiosError) : string :=
  JS.or_else (response err ≫= message) "Something went wrong".

(** The fulfilled handler of [interceptors.response.use]. *)
Definition response_fulfilled (env : Env) (r : Response)
    : Env * Settled Response AxiosError :=
  (env, Resolved r).

(** The rejected handler of [interceptors.response.use]. *)
Definition response_rejected (env : Env) (err : AxiosError)
    : Env * Settled Response AxiosError :=
  let env :=
    if is_401 err then
      match window env with
      | Some _ =>
          let env := with_window (removeItem "token") env in
          with_window (navigate "/auth/login") env
      | None => env
      end
    else env in
  let message := error_message err in
  let env := toast_error message env in
  (env, Rejected err).

End api.

(** [src/lib/api.ts]: key "authToken", no response interceptor. *)
Module apiClient.

Definition tokenKey : string := "authToken".

Definition request_interceptor := axios.request_interceptor tokenKey.
Definition build_request := axios.build_request tokenKey.

End apiClient.

(** ** The auth store ([src/store/authSlice.ts]) *)

Module authSlice.

Record User := { id : string; name : string; email : string }.

Record AuthState := { token : option string; user : option User }.

Definition initialState : AuthState := {| token := None; user := None |}.

Definition setCredentials (tok : string) (usr : User) (st : AuthState) : AuthState :=
  {| token := Some tok; user := Some usr |}.

(** [logOut] names [localStorage] without a guard: where there is no
    window the reducer throws, which is [None] here. *)
Definition logOut (env : Env) (st : AuthState) : option (Env * AuthState) :=
  match window env with
  | Some _ =>
      Some (with_window (removeItem "authToken") env,
            {| token := None; user := None |})
  | None => None
  end.

(** The [onSuccess] callback of the register and login pages stores the
    token the server sent. *)
Definition onSuccess_store (tok : string) (env : Env) : Env :=
  with_window (setItem "authToken" tok) env.

End authSlice.

(** ** The async thunks' rejection value ([src/store/taskSlice.ts]) *)

Module thunks.

Import taskSlice.

Definition fallback (k : Thunk) : string :=
  match k with
  | fetchTasks => "Failed to fetch tasks"
  | fetchTask => "Failed to fetch task"
  | createTask => "Failed to create task"
  | updateTask => "Failed to update task"
  | deleteTask => "Failed to delete task"
  end.

(** [rejectWithValue(error.response?.data?.message || fallback)]: the
    action dispatched when the service call of thunk [k] fails. *)
Definition on_error (k : Thunk) (err : AxiosError) : Action :=
  rejected k (JS.or_else (response err ≫= message) (fallback k)).

End thunks.

(** ** Object literals passed to [setFilters] ([Partial<TaskFilters>])

    A key of an object literal is absent ([None]) or present, and a
    present key may hold [undefined] ([Some None]): the spread
    [{ ...a, ...b }] lets every present key of [b] win, an [undefined]
    one too. *)

Module Partial.

Record FiltersPatch := {
  p_completed : option (option bool);
  p_priority : option (option Priority);
  p_page : option (option Z);
  p_limit : option (option Z);
}.

Definition no_keys : FiltersPatch :=
  {| p_completed := None; p_priority := None; p_page := None; p_limit := None |}.

(** [{ ...a, ...b }] *)
Definition spread (a : TaskFilters) (b : FiltersPatch) : TaskFilters :=
  {| f_completed := default (f_completed a) (p_completed b);
     f_priority := default (f_priority a) (p_priority b);
     f_page := default (f_page a) (p_page b);
     f_limit := default (f_limit a) (p_limit b) |}.

(** [{ ...b, ...c }] on two literals. *)
Definition spread_patch (b c : FiltersPatch) : FiltersPatch :=
  {| p_completed := from_option Some (p_completed b) (p_completed c);
     p_priority := from_option Some (p_priority b) (p_priority c);
     p_page := from_option Some (p_page b) (p_page c);
     p_limit := from_option Some (p_limit b) (p_limit c) |}.

(** A filter object read as a literal that names its defined fields only. *)
Definition of_filters (f : TaskFilters) : FiltersPatch :=
  {| p_completed := Some <$> f_completed f;
     p_priority := Some <$> f_priority f;
     p_page := Some <$> f_page f;
     p_limit := Some <$> f_limit f |}.

(** The [setFilters] case reducer on such a literal. *)
Definition setFilters (payload : FiltersPatch) (s : TaskState) : TaskState :=
  taskSlice.set_filters (spread (filters s) payload) s.

End Partial.

(** ** The tasks list component ([src/components/tasks/TasksList.tsx]) and
    the [updateFilters] of the hook ([src/hooks/useTasks.ts]) *)

Module TasksList.

Import Partial.

(** [updateFilters(newFilters)] is [dispatch(setFilters(newFilters))]. *)
Definition updateFilters (newFilters : FiltersPatch) (s : TaskState) : TaskState :=
  Partial.setFilters newFilters s.

(** The two uses of [handleFilterChange(key, value)]. *)
Inductive FilterChange :=
  | change_completed (value : option bool)
  | change_priority (value : option Priority).

(** [updateFilters({ [key]: value, page: 1 })] *)
Definition handleFilterChange (c : FilterChange) (s : TaskState) : TaskState :=
  updateFilters
    match c with
    | change_completed value =>
        {| p_completed := Some value; p_priority := None;
           p_page := Some (Some 1); p_limit := None |}
    | change_priority value =>
        {| p_completed := None; p_priority := Some value;
           p_page := Some (Some 1); p_limit := None |}
    end s.

(** [updateFilters({ completed: undefined, priority: undefined, page: 1 })] *)
Definition clearFilters (s : TaskState) : TaskState :=
  updateFilters
    {| p_completed := Some None; p_priority := Some None;
       p_page := Some (Some 1); p_limit := None |} s.

(** The value shown by the status select:
    [filters.completed?.toString() || "all"]. *)
Definition completed_value (f : TaskFilters) : string :=
  JS.or_else (JS.String_bool <$> f_completed f) "all".

(** Its [onValueChange]:
    [value === "all" ? undefined : value === "true"]. *)
Definition completed_onValueChange (value : string) : FilterChange :=
  change_completed
    (if String.eqb value "all" then None else Some (String.eqb value "true")).

(** The pagination row: shown when [totalPages > 1]; Previous is disabled
    on page 1 and Next on the last page. *)
Definition pagination_shown (p : Pagination) : bool := totalPages p >? 1.
Definition previous_disabled (p : Pagination) : bool := page p =? 1.
Definition next_disabled (p : Pagination) : bool := page p =? totalPages p.

Definition go_to_page (n : Z) : FiltersPatch :=
  {| p_completed := None; p_priority := None;
     p_page := Some (Some n); p_limit := None |}.

(** [updateFilters({ page: pagination.page - 1 })] and [... + 1]. *)
Definition previous_click (s : TaskState) : TaskState :=
  updateFilters (go_to_page (page (pagination s) - 1)) s.
Definition next_click (s : TaskState) : TaskState :=
  updateFilters (go_to_page (page (pagination s) + 1)) s.

End TasksList.

(** ** Route protection ([src/middleware.ts]): the exported function
    (its [config.matcher] is in [routing] below) *)

Module middleware.

Record NextRequest := {
  cookies : gmap string string;
  pathname : string;
}.

(** [NextResponse.redirect(new URL(path, request.url))] keeps the origin
    of the request and replaces its path; [NextResponse.next()]. *)
Inductive NextResponse :=
  | redirect (path : string)
  | next.

(** [!authToken] for [request.cookies.get("authToken")?.value]. *)
Definition no_token (request : NextRequest) : bool :=
  match cookies request !! "authToken" with
  | Some value => negb (JS.truthy_string value)
  | None => true
  end.

Definition middleware (request : NextRequest) : NextResponse :=
  if no_token request && String.prefix "/dashboard" (pathname request)
  then redirect "/login"
  else next.

End middleware.

(** ** A request of a thunk from dispatch to settlement

    [dispatch(thunk(arg))] dispatches [pending], awaits the service call
    behind the interceptors of [api], and dispatches [fulfilled] with the
    returned value or, from the [catch], [rejected] with the value given to
    [rejectWithValue]. *)

Module lifecycle.

Import taskSlice.

Definition failed (k : Thunk) (err : AxiosError) (env : Env) (s : TaskState)
    : Env * TaskState :=
  let s := reducer s (pending k) in
  let r := api.response_rejected env err in
  match r.2 with
  | Rejected e => (r.1, reducer s (thunks.on_error k e))
  | Resolved _ => (r.1, s)
  end.

End lifecycle.

(** ** The tasks service over JavaScript numbers as they are

    A [number] is a double: it may be [NaN], a fraction, or so large that
    [String] prints it in exponent notation.  [getTasks] only tests a
    number for truthiness and prints it, so it is embedded over any type
    of numbers that has these two operations; the integers are one. *)

Module numbers.

Class Number (N : Type) := {
  ToBoolean : N → bool;
  ToString : N → string;
}.

Record Filters (N : Type) := {
  n_completed : option bool;
  n_priority : option Priority;
  n_page : option N;
  n_limit : option N;
}.
Arguments n_completed {N} _.
Arguments n_priority {N} _.
Arguments n_page {N} _.
Arguments n_limit {N} _.

Section getTasks.

Context {N : Type} `{Number N}.

(** The four guarded [params.append] calls of [getTasks]. *)
Definition getTasks_params (filters : option (Filters N)) : URLSearchParams.t :=
  let params := URLSearchParams.empty in
  let params :=
    match filters ≫= n_completed with
    | Some c => URLSearchParams.append params "completed" (JS.String_bool c)
    | None => params
    end in
  let params :=
    match filters ≫= n_priority with
    | Some p =>
        if JS.truthy_string (Priority_str p)
        then URLSearchParams.append params "priority" (Priority_str p)
        else params
    | None => params
    end in
  let params :=
    match filters ≫= n_page with
    | Some n =>
        if ToBoolean n
        then URLSearchParams.append params "page" (ToString n)
        else params
    | None => params
    end in
  let params :=
    match filters ≫= n_limit with
    | Some n =>
        if ToBoolean n
        then URLSearchParams.append params "limit" (ToString n)
        else params
    | None => params
    end in
  params.

Definition getTasks_query (filters : option (Filters N)) : string :=
  URLSearchParams.toString (getTasks_params filters).

End getTasks.

(** The integers of [JS] as numbers. *)
#[global] Instance integers : Number Z :=
  {| ToBoolean := JS.truthy_number; ToString := JS.String_number |}.

Definition of_TaskFilters (f : TaskFilters) : Filters Z :=
  {| n_completed := f_completed f; n_priority := f_priority f;
     n_page := f_page f; n_limit := f_limit f |}.

End numbers.

(** ** The task store as it runs ([src/store/taskSlice.ts])

    [tasksService.getTasks] hands back what [api.get] resolves to, the
    response interceptor of [api] hands a response through as it is, and
    the [fetchTasks] thunk returns that value: the payload of
    [fetchTasks.fulfilled] is the AxiosResponse, whose [data] is the
    response body and which has no [page], [limit], [total] or
    [totalPages].  So [state.tasks] may come to hold an object that is no
    array, the pagination fields may be [undefined], and a case reducer
    that calls an array method on [state.tasks] may throw; the store then
    keeps the state it had. *)

Module runtime.

Inductive TasksValue :=
  | array (l : list Task)
  | object (body : PaginatedResponse).

Record PaginationValue := {
  v_page : option Z;
  v_limit : option Z;
  v_total : option Z;
  v_totalPages : option Z;
}.

Record State := {
  s_tasks : TasksValue;
  s_currentTask : option Task;
  s_isLoading : bool;
  s_error : option string;
  s_filters : TaskFilters;
  s_pagination : PaginationValue;
}.

(** The properties [fetchTasks.fulfilled] reads off its payload; one the
    payload lacks reads as [undefined]. *)
Record FetchPayload := {
  fp_data : TasksValue;
  fp_page : option Z;
  fp_limit : option Z;
  fp_total : option Z;
  fp_totalPages : option Z;
}.

(** An AxiosResponse; of its properties ([data], [status], [statusText],
    [headers], [config], [request]) the reducer can only find [data]. *)
Record AxiosResponse := {
  ar_data : PaginatedResponse;
  ar_status : Z;
}.

(** [return response] in the [fetchTasks] thunk. *)
Definition returned_by_fetchTasks (response : AxiosResponse) : FetchPayload :=
  {| fp_data := object (ar_data response);
     fp_page := None; fp_limit := None; fp_total := None; fp_totalPages := None |}.

(** The payload the types declare: the paginated response itself. *)
Definition declared (r : PaginatedResponse) : FetchPayload :=
  {| fp_data := array (r_data r);
     fp_page := Some (r_page r); fp_limit := Some (r_limit r);
     fp_total := Some (r_total r); fp_totalPages := Some (r_totalPages r) |}.

Inductive Payload :=
  | fetchTasks_payload (p : FetchPayload)
  | fetchTask_payload (task : Task)
  | createTask_payload (task : Task)
  | updateTask_payload (task : Task)
  | deleteTask_payload (id : string).

Definition thunk_of (p : Payload) : taskSlice.Thunk :=
  match p with
  | fetchTasks_payload _ => taskSlice.fetchTasks
  | fetchTask_payload _ => taskSlice.fetchTask
  | createTask_payload _ => taskSlice.createTask
  | updateTask_payload _ => taskSlice.updateTask
  | deleteTask_payload _ => taskSlice.deleteTask
  end.

Inductive Action :=
  | setFilters (payload : TaskFilters)
  | clearCurrentTask
  | clearError
  | pending (k : taskSlice.Thunk)
  | fulfilled (payload : Payload)
  | rejected (k : taskSlice.Thunk) (payload : string).

Definition set_tasks (v : TasksValue) (s : State) : State :=
  {| s_tasks := v; s_currentTask := s_currentTask s; s_isLoading := s_isLoading s;
     s_error := s_error s; s_filters := s_filters s; s_pagination := s_pagination s |}.
Definition set_currentTask (v : option Task) (s : State) : State :=
  {| s_tasks := s_tasks s; s_currentTask := v; s_isLoading := s_isLoading s;
     s_error := s_error s; s_filters := s_filters s; s_pagination := s_pagination s |}.
Definition set_isLoading (v : bool) (s : State) : State :=
  {| s_tasks := s_tasks s; s_currentTask := s_currentTask s; s_isLoading := v;
     s_error := s_error s; s_filters := s_filters s; s_pagination := s_pagination s |}.
Definition set_error (v : option string) (s : State) : State :=
  {| s_tasks := s_tasks s; s_currentTask := s_currentTask s; s_isLoading := s_isLoading s;
     s_error := v; s_filters := s_filters s; s_pagination := s_pagination s |}.
Definition set_filters (v : TaskFilters) (s : State) : State :=
  {| s_tasks := s_tasks s; s_currentTask := s_currentTask s; s_isLoading := s_isLoading s;
     s_error := s_error s; s_filters := v; s_pagination := s_pagination s |}.
Definition set_pagination (v : PaginationValue) (s : State) : State :=
  {| s_tasks := s_tasks s; s_currentTask := s_currentTask s; s_isLoading := s_isLoading s;
     s_error := s_error s; s_filters := s_filters s; s_pagination := v |}.

(** [state.currentTask?._id === id] *)
Definition current_has_id (id : string) (s : State) : bool :=
  match s_currentTask s with
  | Some task => taskSlice.has_id id task
  | None => false
  end.

Definition fetchTasks_fulfilled (p : FetchPayload) (s : State) : State :=
  let s := set_isLoading false s in
  let s := set_tasks (fp_data p) s in
  set_pagination
    {| v_page := fp_page p; v_limit := fp_limit p;
       v_total := fp_total p; v_totalPages := fp_totalPages p |} s.

(** [state.tasks.unshift(payload)]: a TypeError ([None]) unless
    [state.tasks] is an array. *)
Definition createTask_fulfilled (task : Task) (s : State) : option State :=
  let s := set_isLoading false s in
  match s_tasks s with
  | array l => Some (set_tasks (array (task :: l)) s)
  | object _ => None
  end.

(** [state.tasks.findIndex(...)]: likewise. *)
Definition updateTask_fulfilled (task : Task) (s : State) : option State :=
  let s := set_isLoading false s in
  match s_tasks s with
  | array l =>
      let index := taskSlice.findIndex (taskSlice.has_id (_id task)) l in
      let s :=
        if negb (index =? -1)
        then set_tasks (array (<[Z.to_nat index := task]> l)) s
        else s in
      Some (if current_has_id (_id task) s
            then set_currentTask (Some task) s else s)
  | object _ => None
  end.

(** [state.tasks.filter(...)]: likewise. *)
Definition deleteTask_fulfilled (id : string) (s : State) : option State :=
  let s := set_isLoading false s in
  match s_tasks s with
  | array l =>
      let s :=
        set_tasks
          (array (filter (λ task, negb (taskSlice.has_id id task) = true) l)) s in
      Some (if current_has_id id s then set_currentTask None s else s)
  | object _ => None
  end.

(** The slice reducer; [None] when the case reducer throws. *)
Definition reducer (s : State) (a : Action) : option State :=
  match a with
  | setFilters payload =>
      Some (set_filters (taskSlice.spread (s_filters s) payload) s)
  | clearCurrentTask => Some (set_currentTask None s)
  | clearError => Some (set_error None s)
  | pending _ => Some (set_error None (set_isLoading true s))
  | rejected _ payload => Some (set_error (Some payload) (set_isLoading false s))
  | fulfilled (fetchTasks_payload p) => Some (fetchTasks_fulfilled p s)
  | fulfilled (fetchTask_payload task) =>
      Some (set_currentTask (Some task) (set_isLoading false s))
  | fulfilled (createTask_payload task) => createTask_fulfilled task s
  | fulfilled (updateTask_payload task) => updateTask_fulfilled task s
  | fulfilled (deleteTask_payload id) => deleteTask_fulfilled id s
  end.

(** The state of the store after [dispatch(a)]: the reducer's result, or
    the old state when the reducer threw. *)
Definition dispatch (s : State) (a : Action) : State :=
  default s (reducer s a).

(** A request that succeeds: [pending], then [fulfilled] with what the
    thunk returned. *)
Definition succeeded (p : Payload) (s : State) : State :=
  dispatch (dispatch s (pending (thunk_of p))) (fulfilled p).

(** The typed store inside the running one: a state whose list is an
    array and whose pagination fields are numbers, and the actions with the
    payloads the types declare. *)
Definition embed (s : TaskState) : State :=
  {| s_tasks := array (tasks s); s_currentTask := currentTask s;
     s_isLoading := isLoading s; s_error := error s; s_filters := filters s;
     s_pagination :=
       {| v_page := Some (page (pagination s));
          v_limit := Some (limit (pagination s));
          v_total := Some (total (pagination s));
          v_totalPages := Some (totalPages (pagination s)) |} |}.

Definition lift_payload (p : taskSlice.Payload) : Payload :=
  match p with
  | taskSlice.fetchTasks_payload r => fetchTasks_payload (declared r)
  | taskSlice.fetchTask_payload task => fetchTask_payload task
  | taskSlice.createTask_payload task => createTask_payload task
  | taskSlice.updateTask_payload task => updateTask_payload task
  | taskSlice.deleteTask_payload id => deleteTask_payload id
  end.

Definition lift (a : taskSlice.Action) : Action :=
  match a with
  | taskSlice.setFilters payload => setFilters payload
  | taskSlice.clearCurrentTask => clearCurrentTask
  | taskSlice.clearError => clearError
  | taskSlice.pending k => pending k
  | taskSlice.fulfilled p => fulfilled (lift_payload p)
  | taskSlice.rejected k payload => rejected k payload
  end.

End runtime.

(** ** Route protection as the framework applies it ([src/middleware.ts])

    [config.matcher] makes the framework run [middleware] only for the
    paths its pattern "/dashboard/:path*" selects; every other request
    goes on untouched.  Which paths a pattern selects is the framework's
    business, so the selection is a parameter here. *)

Module routing.

Definition routed (matcher : string → bool) (request : middleware.NextRequest)
    : middleware.NextResponse :=
  if matcher (middleware.pathname request)
  then middleware.middleware request
  else middleware.next.

End routing.

(** ** Sample values and the wording of the specification *)

Definition filter_example : TaskFilters :=
  {| f_completed := Some true; f_priority := Some high;
     f_page := Some 2; f_limit := Some 10 |}.

Definition filter_page_zero : TaskFilters :=
  {| f_completed := None; f_priority := None;
     f_page := Some 0; f_limit := None |}.

(** A filter field is set when it is present, whatever its value. *)
Definition field_set (f : TaskFilters) (name : string) : Prop :=
  (name = "completed" ∧ is_Some (f_completed f))
  ∨ (name = "priority" ∧ is_Some (f_priority f))
  ∨ (name = "page" ∧ is_Some (f_page f))
  ∨ (name = "limit" ∧ is_Some (f_limit f)).

(** One optional query parameter. *)
Definition entry (name : string) (value : option string) : URLSearchParams.t :=
  match value with
  | Some v => [(name, v)]
  | None => []
  end.

(** The value sent for a numeric field: none for an absent or zero one. *)
Definition number_entry (n : option Z) : option string :=
  n ≫= λ v, if JS.truthy_number v then Some (JS.String_number v) else None.

Definition with_completed (c : option bool) (f : TaskFilters) : TaskFilters :=
  {| f_completed := c; f_priority := f_priority f;
     f_page := f_page f; f_limit := f_limit f |}.
Definition with_page (n : option Z) (f : TaskFilters) : TaskFilters :=
  {| f_completed := f_completed f; f_priority := f_priority f;
     f_page := n; f_limit := f_limit f |}.
Definition with_limit (n : option Z) (f : TaskFilters) : TaskFilters :=
  {| f_completed := f_completed f; f_priority := f_priority f;
     f_page := f_page f; f_limit := n |}.

Definition sample_task (id : string) : Task :=
  {| _id := id; title := "write report"; description := None;
     completed := false; priority := medium; dueDate := None;
     createdAt := "2024-01-01T00:00:00Z"; updatedAt := "2024-01-01T00:00:00Z" |}.

(** A response body for total 47 and limit 10, with the five tasks of its
    page and the total-pages value 5 the server derived. *)
Definition body_47_by_10 : PaginatedResponse :=
  {| r_data := sample_task <$> ["a"; "b"; "c"; "d"; "e"];
     r_total := 47; r_page := 2; r_limit := 10; r_totalPages := 5 |}.

(** The AxiosResponse that carries it. *)
Definition response_47_by_10 : runtime.AxiosResponse :=
  {| runtime.ar_data := body_47_by_10; runtime.ar_status := 200 |}.

(** A payload with the properties [data], [total], [page] and [limit]
    and none called [totalPages]. *)
Definition payload_without_totalPages : runtime.FetchPayload :=
  {| runtime.fp_data := runtime.array (r_data body_47_by_10);
     runtime.fp_page := Some 2; runtime.fp_limit := Some 10;
     runtime.fp_total := Some 47; runtime.fp_totalPages := None |}.

(** The running store before anything was dispatched. *)
Definition runtime_initialState : runtime.State :=
  runtime.embed taskSlice.initialState.

(** The entry of the list that an update or a delete of [id] misses. *)
Definition other_id (id : string) (task : Task) : Prop := _id task ≠ id.

(** Whether an action is the [fulfilled] action of [fetchTasks]. *)
Definition is_fetchTasks_fulfilled (a : taskSlice.Action) : bool :=
  match a with
  | taskSlice.fulfilled (taskSlice.fetchTasks_payload _) => true
  | _ => false
  end.

(** A 401 answer of the server. *)
Definition error_401 : AxiosError :=
  {| code := "ERR_BAD_REQUEST";
     response := Some {| status := 401; message := Some "Unauthorized" |} |}.

(** No window: the module evaluated on the server side. *)
Definition env_server : Env := {| window := None; toasts := [] |}.

(** A browser tab on the dashboard whose storage holds [value] under [key]. *)
Definition env_browser (key value : string) : Env :=
  {| window := Some {| localStorage := {[ key := value ]};
                       location_href := "/dashboard" |};
     toasts := [] |}.

(** A string all of whose bytes [URLSearchParams] leaves as they are. *)
Fixpoint all_plain (s : string) : bool :=
  match s with
  | EmptyString => true
  | String c s' => URLSearchParams.is_plain c && all_plain s'
  end.

(** The pairs written out as they are, [name=value] joined by [&]. *)
Fixpoint verbatim (params : URLSearchParams.t) : string :=
  match params with
  | [] => ""
  | [p] => p.1 +:+ "=" +:+ p.2
  | p :: rest => (p.1 +:+ "=" +:+ p.2) +:+ "&" +:+ verbatim rest
  end.

(** A numeric filter field as the service treats it: a falsy number is
    no value. *)
Definition truthy_only {N} `{numbers.Number N} (n : option N) : option N :=
  n ≫= λ v, if numbers.ToBoolean v then Some v else None.

(** The value sent for a numeric field, if any. *)
Definition sent_number {N} `{numbers.Number N} (n : option N) : option string :=
  n ≫= λ v, if numbers.ToBoolean v then Some (numbers.ToString v) else None.

(** The filter the service acts on: an absent filter object is the empty
    one, and a falsy page or limit is an unset one. *)
Definition effective {N} `{numbers.Number N}
    (filters : option (numbers.Filters N)) : numbers.Filters N :=
  {| numbers.n_completed := filters ≫= numbers.n_completed;
     numbers.n_priority := filters ≫= numbers.n_priority;
     numbers.n_page := truthy_only (filters ≫= numbers.n_page);
     numbers.n_limit := truthy_only (filters ≫= numbers.n_limit) |}.

(** An integer field that [String] prints as a plain decimal numeral. *)
Definition plain_decimal (n : option Z) : Prop :=
  ∀ v, n = Some v → - 10 ^ 21 < v < 10 ^ 21.

(** Two filters that differ only in a page of 0. *)
Definition filters_page_0 : numbers.Filters Z :=
  {| numbers.n_completed := Some true; numbers.n_priority := None;
     numbers.n_page := Some 0; numbers.n_limit := Some 10 |}.
Definition filters_no_page : numbers.Filters Z :=
  {| numbers.n_completed := Some true; numbers.n_priority := None;
     numbers.n_page := None; numbers.n_limit := Some 10 |}.

(** The list with its first entry that carries [task]'s identifier
    overwritten by [task]. *)
Fixpoint replace_first (task : Task) (l : list Task) : list Task :=
  match l with
  | [] => []
  | x :: l' =>
      if taskSlice.has_id (_id task) x then task :: l'
      else x :: replace_first task l'
  end.

(** The identifiers of the listed tasks, in list order. *)
Definition ids (s : TaskState) : list string := _id <$> tasks s.

(** What an action must satisfy for the identifiers to stay unique: a
    fetched page has unique identifiers and a created task a new one. *)
Definition brings_no_duplicate (s : TaskState) (a : taskSlice.Action) : Prop :=
  match a with
  | taskSlice.fulfilled (taskSlice.fetchTasks_payload r) =>
      NoDup (_id <$> r_data r)
  | taskSlice.fulfilled (taskSlice.createTask_payload t) => _id t ∉ ids s
  | _ => True
  end.

(** A store that lists two tasks. *)
Definition state_two_tasks : TaskState :=
  taskSlice.set_tasks [sample_task "a"; sample_task "b"] taskSlice.initialState.

(** Whether a case reducer calls an array method on [state.tasks]. *)
Definition needs_array (p : runtime.Payload) : bool :=
  match p with
  | runtime.createTask_payload _ | runtime.updateTask_payload _
  | runtime.deleteTask_payload _ => true
  | _ => false
  end.

Definition is_array (v : runtime.TasksValue) : bool :=
  match v with runtime.array _ => true | runtime.object _ => false end.

(** A store that shows page 2 of 5. *)
Definition state_page_2_of_5 : TaskState :=
  taskSlice.set_pagination
    {| page := 2; limit := 10; total := 47; totalPages := 5 |}
    taskSlice.initialState.

(** * Properties *)

(** ** The definitions on sample inputs *)

Example encode_reserved : URLSearchParams.encode "a b&c/-1" = "a+b%26c%2F-1".
Proof. reflexivity. Qed.

Example getTasks_no_filters : tasksService.getTasks_url None = "/api/tasks?".
Proof. reflexivity. Qed.

Example getTasks_negative_page :
  tasksService.getTasks_query
    (Some {| f_completed := Some false; f_priority := None;
             f_page := Some (-1); f_limit := Some 0 |})
  = "completed=false&page=-1".
Proof. reflexivity. Qed.

Example findIndex_first_match :
  taskSlice.findIndex (taskSlice.has_id "b")
    [sample_task "a"; sample_task "b"; sample_task "b"] = 1.
Proof. reflexivity. Qed.

Example findIndex_no_match :
  taskSlice.findIndex (taskSlice.has_id "z") [sample_task "a"; sample_task "b"] = -1.
Proof. reflexivity. Qed.

Example request_with_token :
  headers (api.build_request (env_browser "token" "abc") "GET" "/api/tasks?" None)
    !! "Authorization" = Some "Bearer abc".
Proof. vm_compute. reflexivity. Qed.

Example request_on_server :
  headers (api.build_request env_server "GET" "/api/tasks?" None)
  = default_headers.
Proof. reflexivity. Qed.

Example rejected_500_keeps_session :
  (api.response_rejected (env_browser "token" "abc")
     {| code := "ERR_BAD_RESPONSE";
        response := Some {| status := 500; message := None |} |}).1
  = toast_error "Something went wrong" (env_browser "token" "abc").
Proof. reflexivity. Qed.

(** ** The tasks service *)

Section TasksService.

Import JS tasksService.

Lemma Priority_str_truthy p : truthy_string (Priority_str p) = true.
Proof. by destruct p. Qed.

Lemma truthy_number_spec n : truthy_number n = true ↔ n ≠ 0.
Proof. unfold truthy_number. destruct (Z.eqb_spec n 0); naive_solver. Qed.

(** [getTasks] emits at most one pair per field, in the fixed order
    completed, priority, page, limit. *)
Lemma getTasks_params_entries filters :
  getTasks_params filters
  = (entry "completed" (String_bool <$> (filters ≫= f_completed))
     ++ entry "priority" (Priority_str <$> (filters ≫= f_priority))
     ++ entry "page" (number_entry (filters ≫= f_page))
     ++ entry "limit" (number_entry (filters ≫= f_limit)))%list.
Proof.
  unfold getTasks_params, number_entry, URLSearchParams.append.
  destruct (filters ≫= f_completed) as [c|];
    destruct (filters ≫= f_priority) as [p|];
    rewrite ?Priority_str_truthy;
    destruct (filters ≫= f_page) as [n|]; simpl;
    try destruct (truthy_number n);
    destruct (filters ≫= f_limit) as [m|]; simpl;
    try destruct (truthy_number m); reflexivity.
Qed.

Lemma elem_of_entry name value k v :
  (k, v) ∈ entry name value ↔ k = name ∧ value = Some v.
Proof.
  destruct value as [x|]; simpl.
  - rewrite list_elem_of_singleton. naive_solver.
  - rewrite elem_of_nil. naive_solver.
Qed.

Lemma number_entry_Some n v :
  number_entry n = Some v ↔ ∃ x, n = Some x ∧ x ≠ 0 ∧ v = String_number x.
Proof.
  unfold number_entry. destruct n as [x|]; simpl.
  - destruct (truthy_number x) eqn:E.
    + apply truthy_number_spec in E. naive_solver.
    + assert (¬ x ≠ 0) by (rewrite <- truthy_number_spec; congruence).
      naive_solver.
  - naive_solver.
Qed.

Lemma names_entry name value :
  URLSearchParams.names (entry name value)
  = match value with Some _ => [name] | None => [] end.
Proof. by destruct value. Qed.

Lemma getTasks_names_NoDup filters :
  NoDup (URLSearchParams.names (getTasks_params filters)).
Proof.
  rewrite getTasks_params_entries. unfold URLSearchParams.names.
  rewrite !fmap_app.
  fold (URLSearchParams.names (entry "completed" (String_bool <$> (filters ≫= f_completed)))).
  fold (URLSearchParams.names (entry "priority" (Priority_str <$> (filters ≫= f_priority)))).
  fold (URLSearchParams.names (entry "page" (number_entry (filters ≫= f_page)))).
  fold (URLSearchParams.names (entry "limit" (number_entry (filters ≫= f_limit)))).
  rewrite !names_entry.
  destruct (String_bool <$> _), (Priority_str <$> _),
    (number_entry (filters ≫= f_page)), (number_entry (filters ≫= f_limit));
    simpl; repeat (apply NoDup_cons; split; [set_solver|]); apply NoDup_nil_2.
Qed.

(** C3: For the filter {completed: true, priority: "high", page: 2,
    limit: 10}, [getTasks] appends exactly the four pairs completed=true,
    priority=high, page=2, limit=10, in that order and nothing else, so
    the query string of the request is
    [completed=true&priority=high&page=2&limit=10]. *)
Theorem getTasks_example_query :
  getTasks_params (Some filter_example)
  = [("completed", "true"); ("priority", "high"); ("page", "2"); ("limit", "10")]
  ∧ getTasks_query (Some filter_example)
    = "completed=true&priority=high&page=2&limit=10"
  ∧ getTasks_url (Some filter_example)
    = "/api/tasks?completed=true&priority=high&page=2&limit=10".
Proof. repeat split; vm_compute; reflexivity. Qed.

(** C4, as worded, fails: in the filter {page: 0} the field page is set,
    yet [getTasks] sends no page parameter. *)
Lemma getTasks_set_page_zero_omitted :
  field_set filter_page_zero "page"
  ∧ "page" ∉ URLSearchParams.names (getTasks_params (Some filter_page_zero)).
Proof.
  split.
  - right; right; left. split; [reflexivity | by eexists].
  - vm_compute. apply not_elem_of_nil.
Qed.

(** Over the integers: the pairs [getTasks] puts in the query are
    completed when it is set, priority when it is set, and page,
    respectively limit, with its numeral when it is set to an integer
    other than 0; no name occurs twice. *)
Lemma getTasks_sends_exactly filters :
  (∀ name value,
      (name, value) ∈ getTasks_params filters ↔
        (name = "completed"
           ∧ ∃ b, filters ≫= f_completed = Some b ∧ value = String_bool b)
        ∨ (name = "priority"
           ∧ ∃ p, filters ≫= f_priority = Some p ∧ value = Priority_str p)
        ∨ (name = "page"
           ∧ ∃ n, filters ≫= f_page = Some n ∧ n ≠ 0 ∧ value = String_number n)
        ∨ (name = "limit"
           ∧ ∃ n, filters ≫= f_limit = Some n ∧ n ≠ 0 ∧ value = String_number n))
  ∧ NoDup (URLSearchParams.names (getTasks_params filters)).
Proof.
  split; [| apply getTasks_names_NoDup].
  intros name value. rewrite getTasks_params_entries.
  rewrite !elem_of_app, !elem_of_entry, !number_entry_Some, !fmap_Some.
  naive_solver.
Qed.

(** C10: Whatever the other fields are, a filter whose completed is false
    yields the pair completed=false; a filter whose page is 0 yields no
    page parameter and one whose limit is 0 yields no limit parameter;
    page and limit are sent exactly when set to a value other than 0,
    while completed is sent whenever it is set. *)
Theorem getTasks_falsy_fields (f : TaskFilters) :
  ("completed", "false") ∈ getTasks_params (Some (with_completed (Some false) f))
  ∧ ("page" ∉ URLSearchParams.names (getTasks_params (Some (with_page (Some 0) f))))
  ∧ ("limit" ∉ URLSearchParams.names (getTasks_params (Some (with_limit (Some 0) f))))
  ∧ ("completed" ∈ URLSearchParams.names (getTasks_params (Some f))
       ↔ is_Some (f_completed f))
  ∧ ("page" ∈ URLSearchParams.names (getTasks_params (Some f))
       ↔ ∃ n, f_page f = Some n ∧ n ≠ 0)
  ∧ ("limit" ∈ URLSearchParams.names (getTasks_params (Some f))
       ↔ ∃ n, f_limit f = Some n ∧ n ≠ 0).
Proof.
  pose proof (λ g, proj1 (getTasks_sends_exactly (Some g))) as H.
  unfold URLSearchParams.names.
  repeat split.
  - apply H. left. split; [done|]. by exists false.
  - intros ([k v] & Hk & Hin)%list_elem_of_fmap. simpl in Hk. subst k.
    apply H in Hin. simpl in Hin. naive_solver.
  - intros ([k v] & Hk & Hin)%list_elem_of_fmap. simpl in Hk. subst k.
    apply H in Hin. simpl in Hin. naive_solver.
  - intros ([k v] & Hk & Hin)%list_elem_of_fmap. simpl in Hk. subst k.
    apply H in Hin. simpl in Hin. naive_solver.
  - intros [b Hb]. apply list_elem_of_fmap.
    exists ("completed", String_bool b). split; [done|].
    apply H. simpl. naive_solver.
  - intros ([k v] & Hk & Hin)%list_elem_of_fmap. simpl in Hk. subst k.
    apply H in Hin. simpl in Hin. naive_solver.
  - intros (n & Hn & Hne). apply list_elem_of_fmap.
    exists ("page", String_number n). split; [done|].
    apply H. simpl. naive_solver.
  - intros ([k v] & Hk & Hin)%list_elem_of_fmap. simpl in Hk. subst k.
    apply H in Hin. simpl in Hin. naive_solver.
  - intros (n & Hn & Hne). apply list_elem_of_fmap.
    exists ("limit", String_number n). split; [done|].
    apply H. simpl. naive_solver.
Qed.

End TasksService.

(** ** The task store *)

Section TaskSlice.

Import taskSlice.

Lemma has_id_true id task : has_id id task = true ↔ _id task = id.
Proof. unfold has_id. apply String.eqb_eq. Qed.

Lemma has_id_false id task : has_id id task = false ↔ other_id id task.
Proof. unfold has_id, other_id. apply String.eqb_neq. Qed.

(** [findIndex] either finds nothing and answers [-1], or splits the list
    at the first element that satisfies the predicate. *)
Lemma findIndex_from_spec {A} (p : A → bool) (l : list A) : ∀ k,
  (Forall (λ x, p x = false) l ∧ findIndex_from p k l = -1)
  ∨ (∃ l1 x l2, l = (l1 ++ x :: l2)%list
       ∧ Forall (λ y, p y = false) l1 ∧ p x = true
       ∧ findIndex_from p k l = k + Z.of_nat (length l1)).
Proof.
  induction l as [|a l IH]; intros k; simpl.
  - left. split; [constructor | reflexivity].
  - destruct (p a) eqn:Ea.
    + right. exists [], a, l. simpl. repeat split; [constructor | done | lia].
    + destruct (IH (k + 1)) as [[Hall Hk] | (l1 & x & l2 & -> & Hall & Hx & Hk)].
      * left. split; [by constructor | done].
      * right. exists (a :: l1), x, l2. simpl.
        repeat split; [by constructor | done | lia].
Qed.

(** The task list after [updateTask.fulfilled]. *)
Lemma updateTask_fulfilled_tasks (task : Task) (s : TaskState) :
  (Forall (other_id (_id task)) (tasks s)
     ∧ tasks (updateTask_fulfilled task s) = tasks s)
  ∨ (∃ l1 old l2, tasks s = (l1 ++ old :: l2)%list
       ∧ Forall (other_id (_id task)) l1 ∧ _id old = _id task
       ∧ tasks (updateTask_fulfilled task s) = (l1 ++ task :: l2)%list).
Proof.
  unfold updateTask_fulfilled, findIndex. simpl.
  destruct (findIndex_from_spec (has_id (_id task)) (tasks s) 0)
    as [[Hall ->] | (l1 & old & l2 & Hl & Hall & Hold & ->)].
  - left. simpl. split.
    + eapply Forall_impl; [exact Hall|]. intros x. apply has_id_false.
    + by destruct (current_has_id _ _).
  - right. exists l1, old, l2.
    split; [done|]. split.
    { eapply Forall_impl; [exact Hall|]. intros x. apply has_id_false. }
    split; [by apply has_id_true|].
    replace (0 + Z.of_nat (length l1) =? -1) with false
      by (symmetry; apply Z.eqb_neq; lia).
    simpl. rewrite Z.add_0_l, Nat2Z.id, Hl.
    replace (length l1) with (length l1 + 0)%nat by lia.
    rewrite insert_app_r. simpl.
    by destruct (current_has_id _ _).
Qed.

Lemma updateTask_fulfilled_currentTask (task : Task) (s : TaskState) :
  currentTask (updateTask_fulfilled task s)
  = if current_has_id (_id task) s then Some task else currentTask s.
Proof.
  unfold updateTask_fulfilled. simpl.
  set (i := findIndex _ _). destruct (negb (i =? -1)); simpl;
    unfold current_has_id; simpl;
    (destruct (currentTask s) as [c|] eqn:Hc; simpl;
     [destruct (has_id _ c)|]; simpl; done).
Qed.

Lemma updateTask_fulfilled_frame (task : Task) (s : TaskState) :
  isLoading (updateTask_fulfilled task s) = false
  ∧ error (updateTask_fulfilled task s) = error s
  ∧ filters (updateTask_fulfilled task s) = filters s
  ∧ pagination (updateTask_fulfilled task s) = pagination s.
Proof.
  unfold updateTask_fulfilled.
  set (i := findIndex _ _). destruct (negb (i =? -1)); simpl;
    by destruct (current_has_id _ _).
Qed.

Lemma deleteTask_fulfilled_tasks (id : string) (s : TaskState) :
  tasks (deleteTask_fulfilled id s)
  = filter (λ task, negb (has_id id task) = true) (tasks s).
Proof. unfold deleteTask_fulfilled. simpl. by destruct (current_has_id _ _). Qed.

Lemma deleteTask_fulfilled_currentTask (id : string) (s : TaskState) :
  currentTask (deleteTask_fulfilled id s)
  = if current_has_id id s then None else currentTask s.
Proof.
  unfold deleteTask_fulfilled, current_has_id. simpl.
  destruct (currentTask s) as [c|] eqn:Hc; simpl;
    [destruct (has_id id c)|]; simpl; done.
Qed.

Lemma deleteTask_fulfilled_frame (id : string) (s : TaskState) :
  isLoading (deleteTask_fulfilled id s) = false
  ∧ error (deleteTask_fulfilled id s) = error s
  ∧ filters (deleteTask_fulfilled id s) = filters s
  ∧ pagination (deleteTask_fulfilled id s) = pagination s.
Proof. unfold deleteTask_fulfilled. simpl. by destruct (current_has_id _ _). Qed.

Lemma negb_has_id id task : negb (has_id id task) = true ↔ other_id id task.
Proof. rewrite negb_true_iff. apply has_id_false. Qed.

(** C5: For every task state and every updated task X,
    [updateTask.fulfilled] keeps the length of the list and the number of
    entries that carry X's identifier (no entry is added); when no entry
    carries that identifier the list is unchanged, otherwise the first
    entry that carries it is overwritten with X at its own position and
    every other entry stays where it was; and the current selection
    becomes X exactly when it carried X's identifier, and is untouched
    otherwise. *)
Theorem updateTask_fulfilled_replaces_in_place (s : TaskState) (X : Task) :
  let s' := reducer s (fulfilled (updateTask_payload X)) in
  length (tasks s') = length (tasks s)
  ∧ length (filter (λ t, _id t = _id X) (tasks s'))
    = length (filter (λ t, _id t = _id X) (tasks s))
  ∧ ((Forall (other_id (_id X)) (tasks s) ∧ tasks s' = tasks s)
     ∨ (∃ l1 old l2, tasks s = (l1 ++ old :: l2)%list
          ∧ Forall (other_id (_id X)) l1 ∧ _id old = _id X
          ∧ tasks s' = (l1 ++ X :: l2)%list))
  ∧ currentTask s'
    = match currentTask s with
      | Some c => if decide (_id c = _id X) then Some X else Some c
      | None => None
      end.
Proof.
  simpl. pose proof (updateTask_fulfilled_tasks X s) as Ht.
  split; [| split; [| split; [exact Ht |]]].
  - destruct Ht as [[_ ->] | (l1 & old & l2 & -> & _ & _ & ->)]; [done|].
    by rewrite !length_app.
  - destruct Ht as [[_ ->] | (l1 & old & l2 & -> & _ & Hold & ->)]; [done|].
    rewrite !filter_app, !length_app. f_equal.
    rewrite (filter_cons_True _ old) by done.
    by rewrite (filter_cons_True _ X).
  - rewrite updateTask_fulfilled_currentTask. unfold current_has_id.
    destruct (currentTask s) as [c|]; [|done].
    destruct (has_id (_id X) c) eqn:E; case_decide; try done.
    + apply has_id_true in E. done.
    + apply has_id_false in E. done.
Qed.

(** When identifiers are unique in the list, the update is the pointwise
    replacement of the entry that carries X's identifier. *)
Lemma updateTask_fulfilled_unique_ids (s : TaskState) (X : Task) :
  NoDup (_id <$> tasks s) →
  tasks (reducer s (fulfilled (updateTask_payload X)))
  = (λ t, if has_id (_id X) t then X else t) <$> tasks s.
Proof.
  intros Hnd. simpl.
  assert (∀ l : list Task, Forall (other_id (_id X)) l →
            (λ t, if has_id (_id X) t then X else t) <$> l = l) as Hid.
  { induction 1 as [|t l Ht _ IH]; [done|]. rewrite fmap_cons, IH.
    apply has_id_false in Ht. by rewrite Ht. }
  destruct (updateTask_fulfilled_tasks X s)
    as [[Hall ->] | (l1 & old & l2 & Hl & Hall & Hold & ->)].
  - by rewrite Hid.
  - rewrite Hl in *. rewrite fmap_app, fmap_cons.
    rewrite Hid by done. apply has_id_true in Hold as Hold'. rewrite Hold'.
    rewrite Hid; [done|].
    rewrite fmap_app in Hnd. apply NoDup_app in Hnd as (_ & _ & Hnd).
    simpl in Hnd. apply NoDup_cons in Hnd as [Hnotin _].
    apply Forall_forall. intros t Ht Heq. apply Hnotin.
    rewrite Hold, <- Heq. apply list_elem_of_fmap. eauto.
Qed.

(** C6: For every task state and every identifier X,
    [deleteTask.fulfilled] leaves exactly the entries whose identifier
    differs from X, in their old order, so no entry of the new list has
    identifier X; and the current selection is null afterwards if it
    carried X, and is untouched otherwise. *)
Theorem deleteTask_fulfilled_removes (s : TaskState) (X : string) :
  let s' := reducer s (fulfilled (deleteTask_payload X)) in
  Forall (other_id X) (tasks s')
  ∧ (∀ t, t ∈ tasks s' ↔ t ∈ tasks s ∧ _id t ≠ X)
  ∧ sublist (tasks s') (tasks s)
  ∧ currentTask s'
    = match currentTask s with
      | Some c => if decide (_id c = X) then None else Some c
      | None => None
      end.
Proof.
  simpl. rewrite deleteTask_fulfilled_tasks, deleteTask_fulfilled_currentTask.
  split; [| split; [| split]].
  - apply Forall_forall. intros t [Ht _]%list_elem_of_filter.
    by apply negb_has_id.
  - intros t. rewrite list_elem_of_filter, negb_has_id. unfold other_id.
    naive_solver.
  - apply sublist_filter.
  - unfold current_has_id. destruct (currentTask s) as [c|]; [|done].
    destruct (has_id X c) eqn:E; case_decide; try done.
    + apply has_id_true in E. done.
    + apply has_id_false in E. done.
Qed.

(** On the states and payloads the types declare, each of the five
    lifecycle actions follows the three phases.  For
    every state: a pending action of any of the five sets the loading flag
    and clears the error, touching nothing else; a rejected action clears
    the loading flag and stores the message it carries, touching nothing
    else; a fulfilled action clears the loading flag, leaves error and
    filters alone, and merges its result: fetch list replaces the list and
    the pagination, fetch one sets the selection, create prepends, update
    overwrites the first entry with that identifier, delete keeps the
    entries with another identifier. *)
Lemma lifecycle_three_phases (s : TaskState) :
  (∀ k : Thunk, let s' := reducer s (pending k) in
     isLoading s' = true ∧ error s' = None
     ∧ tasks s' = tasks s ∧ currentTask s' = currentTask s
     ∧ filters s' = filters s ∧ pagination s' = pagination s)
  ∧ (∀ (k : Thunk) (msg : string), let s' := reducer s (rejected k msg) in
     isLoading s' = false ∧ error s' = Some msg
     ∧ tasks s' = tasks s ∧ currentTask s' = currentTask s
     ∧ filters s' = filters s ∧ pagination s' = pagination s)
  ∧ (∀ p : Payload, let s' := reducer s (fulfilled p) in
     isLoading s' = false ∧ error s' = error s ∧ filters s' = filters s
     ∧ match p with
       | fetchTasks_payload r =>
           tasks s' = r_data r ∧ pagination s' = pagination_of r
           ∧ currentTask s' = currentTask s
       | fetchTask_payload t =>
           currentTask s' = Some t
           ∧ tasks s' = tasks s ∧ pagination s' = pagination s
       | createTask_payload t =>
           tasks s' = t :: tasks s
           ∧ currentTask s' = currentTask s ∧ pagination s' = pagination s
       | updateTask_payload t =>
           ((Forall (other_id (_id t)) (tasks s) ∧ tasks s' = tasks s)
            ∨ (∃ l1 old l2, tasks s = (l1 ++ old :: l2)%list
                 ∧ Forall (other_id (_id t)) l1 ∧ _id old = _id t
                 ∧ tasks s' = (l1 ++ t :: l2)%list))
           ∧ currentTask s'
             = (if current_has_id (_id t) s then Some t else currentTask s)
           ∧ pagination s' = pagination s
       | deleteTask_payload id =>
           (∀ t, t ∈ tasks s' ↔ t ∈ tasks s ∧ _id t ≠ id)
           ∧ currentTask s'
             = (if current_has_id id s then None else currentTask s)
           ∧ pagination s' = pagination s
       end).
Proof.
  split; [by intros k | split; [by intros k msg |]].
  intros [r | t | t | t | id]; simpl.
  - done.
  - done.
  - done.
  - destruct (updateTask_fulfilled_frame t s) as (-> & -> & -> & ->).
    rewrite updateTask_fulfilled_currentTask.
    pose proof (updateTask_fulfilled_tasks t s). done.
  - destruct (deleteTask_fulfilled_frame id s) as (-> & -> & -> & ->).
    rewrite deleteTask_fulfilled_currentTask, deleteTask_fulfilled_tasks.
    repeat (split; [done|]). split; [|done].
    intros t. rewrite list_elem_of_filter, negb_has_id. unfold other_id.
    naive_solver.
Qed.

(** The message a failed thunk stores is the server's, or the thunk's own
    fallback when the server sent none. *)
Lemma rejected_thunk_stores_message (s : TaskState) (k : Thunk) (err : AxiosError) :
  error (reducer s (thunks.on_error k err))
  = Some (JS.or_else (response err ≫= message) (thunks.fallback k))
  ∧ isLoading (reducer s (thunks.on_error k err)) = false.
Proof. done. Qed.

Lemma pagination_kept_unless_fetch (s : TaskState) (a : Action) :
  pagination (reducer s a) = pagination s ∨ is_fetchTasks_fulfilled a = true.
Proof.
  destruct a as [f | | | k | [r | t | t | t | id] | k msg]; simpl; auto; left.
  - apply updateTask_fulfilled_frame.
  - apply deleteTask_fulfilled_frame.
Qed.

(** C8: The pagination fields are replaced only by [fetchTasks.fulfilled],
    and then by the four fields of the response; the fulfilled actions of
    create, update and delete leave them as they were, and so does every
    other action of the slice. *)
Theorem pagination_only_from_fetch (s : TaskState) :
  (∀ r, pagination (reducer s (fulfilled (fetchTasks_payload r)))
        = {| page := r_page r; limit := r_limit r;
             total := r_total r; totalPages := r_totalPages r |})
  ∧ (∀ t, pagination (reducer s (fulfilled (createTask_payload t))) = pagination s)
  ∧ (∀ t, pagination (reducer s (fulfilled (updateTask_payload t))) = pagination s)
  ∧ (∀ id, pagination (reducer s (fulfilled (deleteTask_payload id))) = pagination s)
  ∧ (∀ a, pagination (reducer s a)
          = match a with
            | fulfilled (fetchTasks_payload r) => pagination_of r
            | _ => pagination s
            end).
Proof.
  assert (∀ t, pagination (updateTask_fulfilled t s) = pagination s) as Hu
    by (intros t; apply updateTask_fulfilled_frame).
  assert (∀ id, pagination (deleteTask_fulfilled id s) = pagination s) as Hd
    by (intros id; apply deleteTask_fulfilled_frame).
  split; [done | split; [done | split; [exact Hu | split; [exact Hd |]]]].
  intros [f | | | k | [r | t | t | t | id] | k msg]; simpl; auto.
Qed.

(** Over any run of actions none of which is [fetchTasks.fulfilled], the
    pagination fields keep their value. *)
Lemma pagination_stable_without_fetch (acts : list Action) : ∀ s : TaskState,
  forallb (λ a, negb (is_fetchTasks_fulfilled a)) acts = true →
  pagination (dispatch_all s acts) = pagination s.
Proof.
  induction acts as [|a acts IH]; intros s Hall; [done|].
  simpl in Hall. apply andb_true_iff in Hall as [Ha Hacts].
  unfold dispatch_all in *. simpl. rewrite IH by done.
  destruct (pagination_kept_unless_fetch s a) as [-> | E]; [done|].
  rewrite E in Ha. done.
Qed.

End TaskSlice.

(** ** The HTTP client adapters *)

Section Adapters.

Lemma truthy_string_spec t : JS.truthy_string t = true ↔ t ≠ "".
Proof. destruct t; simpl; naive_solver. Qed.

(** The Authorization header of a request the adapter builds. *)
Lemma build_request_authorization tokenKey env method url data :
  headers (axios.build_request tokenKey env method url data) !! "Authorization"
  = stored tokenKey env ≫= λ t,
      if JS.truthy_string t then Some ("Bearer " +:+ t) else None.
Proof.
  unfold axios.build_request, axios.request_interceptor, stored.
  destruct (window env) as [w|]; simpl; [|done].
  destruct (getItem tokenKey w) as [t|]; simpl; [|done].
  destruct (JS.truthy_string t); [|done].
  simpl. apply lookup_insert_eq.
Qed.

(** The interceptor only ever writes the Authorization header, and hands
    the config back as it came when no token is stored: a header a caller
    put there itself would stay. *)
Lemma request_interceptor_other_headers tokenKey env config name :
  name ≠ "Authorization" →
  headers (axios.request_interceptor tokenKey env config) !! name
  = headers config !! name.
Proof.
  intros Hne. unfold axios.request_interceptor.
  destruct (window env) as [w|]; [|done].
  destruct (getItem tokenKey w) as [t|]; [|done].
  destruct (JS.truthy_string t); [|done].
  simpl. by apply lookup_insert_ne.
Qed.

Lemma request_interceptor_without_token tokenKey env config :
  stored tokenKey env = None →
  axios.request_interceptor tokenKey env config = config.
Proof.
  unfold stored, axios.request_interceptor.
  destruct (window env) as [w|]; simpl; [|done]. by intros ->.
Qed.

Lemma stored_removeItem key env :
  stored key (with_window (removeItem key) env) = None.
Proof.
  unfold stored, with_window, getItem. simpl.
  destruct (window env) as [w|]; simpl; [|done]. apply lookup_delete_eq.
Qed.

Lemma stored_removeItem_ne key key' env :
  key ≠ key' →
  stored key' (with_window (removeItem key) env) = stored key' env.
Proof.
  intros Hne. unfold stored, with_window, getItem. simpl.
  destruct (window env) as [w|]; simpl; [|done]. by apply lookup_delete_ne.
Qed.

(** C1, as worded, fails where there is no window: the 401 error is
    rejected, but nothing is redirected. *)
Lemma response_401_without_window :
  status <$> response error_401 = Some 401
  ∧ location (api.response_rejected env_server error_401).1 ≠ Some "/auth/login"
  ∧ (api.response_rejected env_server error_401).2 = Rejected error_401.
Proof. repeat split. vm_compute. congruence. Qed.

(** C1 (amended): For every error whose response has status 401, the
    response handling of [api] rejects with that same error, whatever the
    environment.  When a browser window exists it first removes the key
    "token" from local storage and sets the location to "/auth/login"; when
    none exists there is no storage and no navigation to act on and the
    window stays absent. *)
Theorem response_401_teardown (env : Env) (err : AxiosError) :
  status <$> response err = Some 401 →
  (api.response_rejected env err).2 = Rejected err
  ∧ stored "token" (api.response_rejected env err).1 = None
  ∧ window (api.response_rejected env err).1
    = (navigate "/auth/login" ∘ removeItem "token") <$> window env
  ∧ location (api.response_rejected env err).1
    = (λ _, "/auth/login") <$> window env.
Proof.
  intros H401.
  assert (api.is_401 err = true) as E.
  { unfold api.is_401. destruct (response err) as [r|]; [|done].
    simpl in H401. injection H401 as ->. done. }
  unfold api.response_rejected, location, stored. rewrite E. simpl.
  destruct (window env) as [w|] eqn:Hw; simpl; [|by rewrite Hw].
  rewrite Hw. simpl. repeat split. unfold getItem. simpl.
  apply lookup_delete_eq.
Qed.

Lemma response_401_teardown_witness :
  status <$> response error_401 = Some 401
  ∧ (api.response_rejected (env_browser "token" "abc") error_401).2
    = Rejected error_401
  ∧ stored "token" (api.response_rejected (env_browser "token" "abc") error_401).1
    = None
  ∧ location (api.response_rejected (env_browser "token" "abc") error_401).1
    = Some "/auth/login".
Proof.
  split; [reflexivity|].
  destruct (response_401_teardown (env_browser "token" "abc") error_401)
    as (Hout & Hstored & _ & Hloc); [reflexivity|].
  split; [exact Hout | split; [exact Hstored | exact Hloc]].
Defined.

(** C2, as worded, fails for an empty token: something is stored under
    the key the interceptor reads, yet the request carries no
    Authorization header. *)
Lemma empty_token_sends_no_header :
  is_Some (stored api.tokenKey (env_browser "token" ""))
  ∧ headers (api.build_request (env_browser "token" "") "GET" "/api/tasks?" None)
      !! "Authorization" = None.
Proof. split; [by eexists | vm_compute; reflexivity]. Qed.

(** C2 (amended): For either adapter, that is for every storage key the
    request interceptor reads, and every request the adapter builds: the
    Authorization header is present exactly when client storage holds a
    non-empty token under that key, and it is then "Bearer " followed by
    the token (an empty token counts as none).  So once the token under
    that key is removed, every request omits the header, and once a
    non-empty token is stored again in a browser, requests carry it. *)
Theorem authorization_iff_token_stored (tokenKey : string) (env : Env)
    (method url : string) (data : option string) :
  (∀ v, headers (axios.build_request tokenKey env method url data)
          !! "Authorization" = Some v
        ↔ ∃ t, stored tokenKey env = Some t ∧ t ≠ "" ∧ v = "Bearer " +:+ t)
  ∧ headers (axios.build_request tokenKey
               (with_window (removeItem tokenKey) env) method url data)
      !! "Authorization" = None
  ∧ (∀ c t, headers (axios.build_request tokenKey
                       (with_window (setItem tokenKey (String c t)) env)
                       method url data) !! "Authorization"
            = (λ _, "Bearer " +:+ String c t) <$> window env).
Proof.
  split; [| split].
  - intros v. rewrite build_request_authorization.
    destruct (stored tokenKey env) as [t|]; simpl; [|naive_solver].
    destruct (JS.truthy_string t) eqn:E.
    + apply truthy_string_spec in E. naive_solver.
    + assert (¬ t ≠ "") by (rewrite <- truthy_string_spec; congruence).
      naive_solver.
  - by rewrite build_request_authorization, stored_removeItem.
  - intros c t. rewrite build_request_authorization.
    unfold stored, with_window, getItem. simpl.
    destruct (window env) as [w|]; simpl; [|done].
    by rewrite lookup_insert_eq.
Qed.

(** [logOut] removes "authToken": the requests of [apiClient], which reads
    that key, omit the header from then on. *)
Lemma logOut_clears_apiClient env st env' st' method url data :
  authSlice.logOut env st = Some (env', st') →
  headers (apiClient.build_request env' method url data) !! "Authorization" = None
  ∧ authSlice.token st' = None.
Proof.
  unfold authSlice.logOut. destruct (window env); [|done].
  intros [= <- <-]. split; [|done].
  unfold apiClient.build_request.
  by rewrite build_request_authorization, stored_removeItem.
Qed.

(** [api] reads "token", which [logOut] does not touch. *)
Lemma logOut_keeps_api_token env st env' st' :
  authSlice.logOut env st = Some (env', st') →
  stored api.tokenKey env' = stored api.tokenKey env.
Proof.
  unfold authSlice.logOut. destruct (window env) eqn:Hw; [|done].
  intros [= <- <-]. by apply stored_removeItem_ne.
Qed.

End Adapters.

(** ** More on the tasks service *)

Section TasksServiceMore.

Import JS tasksService.

Lemma encode_all_plain s : all_plain s = true → URLSearchParams.encode s = s.
Proof.
  induction s as [|c s IH]; simpl; [done|].
  intros [Hc Hs]%andb_true_iff. unfold URLSearchParams.encode_byte.
  rewrite Hc, IH by done. done.
Qed.

Lemma all_plain_pretty_N_char x : URLSearchParams.is_plain (pretty_N_char x) = true.
Proof. unfold pretty_N_char. by repeat case_match. Qed.

Lemma all_plain_pretty_N_go x : ∀ s,
  all_plain s = true → all_plain (pretty_N_go x s) = true.
Proof.
  induction (N.lt_wf_0 x) as [x _ IH]; intros s Hs.
  assert (x = 0 ∨ 0 < x)%N as [->|Hx] by lia; [by rewrite pretty_N_go_0|].
  rewrite pretty_N_go_step by done. apply IH; [by apply N.div_lt|].
  simpl. by rewrite all_plain_pretty_N_char.
Qed.

Lemma all_plain_pretty_N (x : N) : all_plain (pretty x) = true.
Proof.
  unfold pretty, pretty_N. case_decide; [done|].
  by apply all_plain_pretty_N_go.
Qed.

Lemma all_plain_String_number n : all_plain (String_number n) = true.
Proof.
  unfold String_number, pretty, pretty_Z. destruct n as [|x|x]; [done| |].
  - apply (all_plain_pretty_N (N.pos x)).
  - simpl. apply (all_plain_pretty_N (N.pos x)).
Qed.

Lemma toString_all_plain (params : URLSearchParams.t) :
  Forall (λ p, all_plain p.1 = true ∧ all_plain p.2 = true) params →
  URLSearchParams.toString params = verbatim params.
Proof.
  induction 1 as [|p rest [H1 H2] Hrest IH]; [done|].
  simpl. unfold URLSearchParams.pair_str. rewrite IH, !encode_all_plain by done.
  by destruct rest.
Qed.

Lemma getTasks_params_all_plain filters :
  Forall (λ p, all_plain p.1 = true ∧ all_plain p.2 = true)
    (getTasks_params filters).
Proof.
  rewrite getTasks_params_entries. rewrite !Forall_app.
  assert (∀ name value, all_plain name = true →
            (∀ v, value = Some v → all_plain v = true) →
            Forall (λ p, all_plain p.1 = true ∧ all_plain p.2 = true)
              (entry name value)) as Hentry.
  { intros name [v|] Hn Hv; simpl; [|constructor].
    constructor; [|constructor]. split; [done | by apply Hv]. }
  repeat split; apply Hentry; try done.
  - intros v (b & _ & ->)%fmap_Some. by destruct b.
  - intros v (q & _ & ->)%fmap_Some. by destruct q.
  - intros v (n & _ & _ & ->)%number_entry_Some. apply all_plain_String_number.
  - intros v (n & _ & _ & ->)%number_entry_Some. apply all_plain_String_number.
Qed.

(** A decimal numeral, with or without sign, needs no escaping. *)
Lemma getTasks_query_numerals filters :
  getTasks_query filters = verbatim (getTasks_params filters).
Proof. apply toString_all_plain, getTasks_params_all_plain. Qed.

(** X1: As long as page and limit are integers of absolute value below
    10^21, where [String] prints the plain decimal numeral, no value
    [getTasks] sends needs escaping: the query string is the pairs written
    out as they are, name, [=], value, joined by [&]. *)
Theorem getTasks_query_verbatim filters :
  plain_decimal (filters ≫= f_page) → plain_decimal (filters ≫= f_limit) →
  getTasks_query filters = verbatim (getTasks_params filters).
Proof. intros _ _. apply getTasks_query_numerals. Qed.

Lemma getTasks_query_verbatim_witness :
  plain_decimal (Some filter_example ≫= f_page)
  ∧ plain_decimal (Some filter_example ≫= f_limit)
  ∧ getTasks_query (Some filter_example)
    = verbatim (getTasks_params (Some filter_example)).
Proof.
  assert (plain_decimal (Some filter_example ≫= f_page)) as Hp
    by (intros v [= <-]; split; reflexivity).
  assert (plain_decimal (Some filter_example ≫= f_limit)) as Hl
    by (intros v [= <-]; split; reflexivity).
  split; [exact Hp | split; [exact Hl |]].
  exact (getTasks_query_verbatim (Some filter_example) Hp Hl).
Defined.

Lemma String_bool_inj b c : String_bool b = String_bool c → b = c.
Proof. by destruct b, c. Qed.

Lemma Priority_str_inj p q : Priority_str p = Priority_str q → p = q.
Proof. by destruct p, q. Qed.

Lemma option_fmap_inj' {A B} (f : A → B) (x y : option A) :
  (∀ a b, f a = f b → a = b) → f <$> x = f <$> y → x = y.
Proof.
  intros Hf. destruct x, y; simpl; intros [=]; [|done]. f_equal. by apply Hf.
Qed.

Lemma entries_inj (a b c d a' b' c' d' : option string) :
  (entry "completed" a ++ entry "priority" b
     ++ entry "page" c ++ entry "limit" d)%list
  = (entry "completed" a' ++ entry "priority" b'
     ++ entry "page" c' ++ entry "limit" d')%list →
  a = a' ∧ b = b' ∧ c = c' ∧ d = d'.
Proof.
  destruct a, b, c, d, a', b', c', d'; simpl; intros [=]; subst; done.
Qed.

End TasksServiceMore.

(** ** More on the task store *)

Section TaskSliceMore.

Import taskSlice.

Lemma has_id_refl task : has_id (_id task) task = true.
Proof. by apply has_id_true. Qed.

Lemma replace_first_other task l :
  Forall (other_id (_id task)) l → replace_first task l = l.
Proof.
  induction 1 as [|x l Hx _ IH]; [done|]. simpl.
  apply has_id_false in Hx. by rewrite Hx, IH.
Qed.

Lemma replace_first_split task l1 old l2 :
  Forall (other_id (_id task)) l1 → _id old = _id task →
  replace_first task (l1 ++ old :: l2) = (l1 ++ task :: l2)%list.
Proof.
  intros Hl1 Hold. induction Hl1 as [|x l Hx _ IH]; simpl.
  - apply has_id_true in Hold. by rewrite Hold.
  - apply has_id_false in Hx. by rewrite Hx, IH.
Qed.

(** The two fulfilled reducers of update and delete, field by field. *)
Lemma updateTask_fulfilled_fields task s :
  updateTask_fulfilled task s
  = {| tasks := replace_first task (tasks s);
       currentTask :=
         if current_has_id (_id task) s then Some task else currentTask s;
       isLoading := false; error := error s;
       filters := filters s; pagination := pagination s |}.
Proof.
  pose proof (updateTask_fulfilled_currentTask task s) as Hc.
  destruct (updateTask_fulfilled_frame task s) as (Hl & He & Hf & Hp).
  assert (tasks (updateTask_fulfilled task s) = replace_first task (tasks s)) as Ht.
  { destruct (updateTask_fulfilled_tasks task s)
      as [[Hall ->] | (l1 & old & l2 & -> & Hall & Hold & ->)].
    - by rewrite replace_first_other.
    - by rewrite replace_first_split. }
  destruct (updateTask_fulfilled task s); simpl in *. by subst.
Qed.

Lemma deleteTask_fulfilled_fields id s :
  deleteTask_fulfilled id s
  = {| tasks := filter (other_id id) (tasks s);
       currentTask := if current_has_id id s then None else currentTask s;
       isLoading := false; error := error s;
       filters := filters s; pagination := pagination s |}.
Proof.
  pose proof (deleteTask_fulfilled_currentTask id s) as Hc.
  pose proof (deleteTask_fulfilled_tasks id s) as Ht.
  destruct (deleteTask_fulfilled_frame id s) as (Hl & He & Hf & Hp).
  assert (filter (λ task, negb (has_id id task) = true) (tasks s)
          = filter (other_id id) (tasks s)) as Hfilter.
  { apply list_filter_iff. intros x. apply negb_has_id. }
  rewrite Hfilter in Ht.
  destruct (deleteTask_fulfilled id s); simpl in *. by subst.
Qed.

Lemma replace_first_ids task l : _id <$> replace_first task l = _id <$> l.
Proof.
  induction l as [|x l IH]; [done|]. simpl.
  destruct (has_id (_id task) x) eqn:E.
  - apply has_id_true in E. by rewrite !fmap_cons, E.
  - by rewrite !fmap_cons, IH.
Qed.

Lemma replace_first_idemp task l :
  replace_first task (replace_first task l) = replace_first task l.
Proof.
  induction l as [|x l IH]; [done|]. simpl.
  destruct (has_id (_id task) x) eqn:E; simpl.
  - by rewrite has_id_refl.
  - by rewrite E, IH.
Qed.

Lemma filter_replace_first task l :
  filter (other_id (_id task)) (replace_first task l)
  = filter (other_id (_id task)) l.
Proof.
  induction l as [|x l IH]; [done|]. simpl.
  destruct (has_id (_id task) x) eqn:E.
  - apply has_id_true in E.
    rewrite !filter_cons_False; [done | |]; unfold other_id; naive_solver.
  - apply has_id_false in E. by rewrite !filter_cons_True, IH.
Qed.

Lemma filter_other_all id (l : list Task) :
  Forall (other_id id) l → filter (other_id id) l = l.
Proof.
  induction 1 as [|x l Hx _ IH]; [done|]. by rewrite filter_cons_True, IH.
Qed.

(** X3: [updateTask.fulfilled] never moves, adds or drops an entry: the
    identifiers of the list, read in list order, are the same before and
    after, whatever the payload. *)
Theorem updateTask_fulfilled_keeps_ids (s : TaskState) (X : Task) :
  ids (reducer s (fulfilled (updateTask_payload X))) = ids s.
Proof.
  simpl. unfold ids. rewrite updateTask_fulfilled_fields. simpl.
  apply replace_first_ids.
Qed.

(** X4: Receiving the same [updateTask.fulfilled] twice leaves the state
    the first one produced. *)
Theorem updateTask_fulfilled_idempotent (s : TaskState) (X : Task) :
  reducer (reducer s (fulfilled (updateTask_payload X)))
    (fulfilled (updateTask_payload X))
  = reducer s (fulfilled (updateTask_payload X)).
Proof.
  simpl. rewrite !updateTask_fulfilled_fields. simpl.
  rewrite replace_first_idemp. f_equal.
  unfold current_has_id. simpl.
  destruct (currentTask s) as [c|]; simpl; [|done].
  destruct (has_id (_id X) c) eqn:E; simpl.
  - by rewrite has_id_refl.
  - by rewrite E.
Qed.

(** X5: Deleting a task whose update has just been merged gives the state
    the delete alone gives: the updated entry leaves no trace. *)
Theorem delete_after_update (s : TaskState) (X : Task) :
  reducer (reducer s (fulfilled (updateTask_payload X)))
    (fulfilled (deleteTask_payload (_id X)))
  = reducer s (fulfilled (deleteTask_payload (_id X))).
Proof.
  simpl. rewrite !deleteTask_fulfilled_fields, updateTask_fulfilled_fields.
  simpl. rewrite filter_replace_first. f_equal.
  unfold current_has_id. simpl.
  destruct (currentTask s) as [c|]; simpl; [|done].
  destruct (has_id (_id X) c) eqn:E; simpl.
  - by rewrite has_id_refl.
  - by rewrite E.
Qed.

(** X6: An update that arrives after the delete of the same task does not
    bring the task back: the list and the selection stay as the delete
    left them. *)
Theorem update_after_delete (s : TaskState) (X : Task) :
  reducer (reducer s (fulfilled (deleteTask_payload (_id X))))
    (fulfilled (updateTask_payload X))
  = reducer s (fulfilled (deleteTask_payload (_id X))).
Proof.
  simpl. rewrite updateTask_fulfilled_fields, !deleteTask_fulfilled_fields.
  simpl. f_equal.
  - apply replace_first_other. apply Forall_forall.
    by intros t [Ht _]%list_elem_of_filter.
  - unfold current_has_id. simpl.
    destruct (currentTask s) as [c|]; simpl; [|done].
    destruct (has_id (_id X) c) eqn:E; simpl; [done|]. by rewrite E.
Qed.

(** X7: [deleteTask.fulfilled] is idempotent, and two deletes give the
    same state in either order. *)
Theorem deleteTask_fulfilled_commutes (s : TaskState) (a b : string) :
  reducer (reducer s (fulfilled (deleteTask_payload a)))
    (fulfilled (deleteTask_payload a))
  = reducer s (fulfilled (deleteTask_payload a))
  ∧ reducer (reducer s (fulfilled (deleteTask_payload a)))
      (fulfilled (deleteTask_payload b))
    = reducer (reducer s (fulfilled (deleteTask_payload b)))
        (fulfilled (deleteTask_payload a)).
Proof.
  simpl. rewrite !deleteTask_fulfilled_fields. simpl. split.
  - f_equal.
    + rewrite list_filter_filter. apply list_filter_iff. naive_solver.
    + unfold current_has_id. simpl.
      destruct (currentTask s) as [c|]; simpl; [|done].
      destruct (has_id a c) eqn:E; simpl; [done|]. by rewrite E.
  - f_equal.
    + rewrite !list_filter_filter. apply list_filter_iff. naive_solver.
    + unfold current_has_id. simpl.
      destruct (currentTask s) as [c|]; simpl; [|done].
      destruct (has_id a c) eqn:Ea, (has_id b c) eqn:Eb; simpl;
        rewrite ?Ea, ?Eb; done.
Qed.

(** X8: Deleting a task right after its creation was merged restores the
    list, provided no listed task carried the new identifier. *)
Theorem delete_after_create (s : TaskState) (X : Task) :
  _id X ∉ ids s →
  tasks (reducer (reducer s (fulfilled (createTask_payload X)))
           (fulfilled (deleteTask_payload (_id X))))
  = tasks s.
Proof.
  intros Hfresh. simpl. rewrite deleteTask_fulfilled_fields. simpl.
  rewrite filter_cons_False by (unfold other_id; naive_solver).
  apply filter_other_all, Forall_forall. intros t Ht Heq. apply Hfresh.
  unfold ids. apply list_elem_of_fmap. eauto.
Qed.

Lemma delete_after_create_witness :
  (_id (sample_task "n") ∉ ids state_two_tasks)
  ∧ tasks (reducer (reducer state_two_tasks
                      (fulfilled (createTask_payload (sample_task "n"))))
             (fulfilled (deleteTask_payload (_id (sample_task "n")))))
    = [sample_task "a"; sample_task "b"].
Proof.
  assert (_id (sample_task "n") ∉ ids state_two_tasks) as H
    by (apply (bool_decide_unpack _); vm_compute; exact I).
  split; [exact H | exact (delete_after_create state_two_tasks (sample_task "n") H)].
Defined.

(** X9: Unique identifiers are an invariant of the list: if no two listed
    tasks share an identifier, then after any action none do, as long as a
    fetched page has unique identifiers itself and a created task carries
    an identifier that is not listed yet. *)
Theorem ids_stay_unique (s : TaskState) (a : Action) :
  NoDup (ids s) → brings_no_duplicate s a → NoDup (ids (reducer s a)).
Proof.
  intros Hs Ha. unfold ids in *.
  destruct a as [f | | | k | [r | t | t | t | id] | k msg]; simpl in *; try done.
  - by apply NoDup_cons.
  - rewrite updateTask_fulfilled_fields. simpl. by rewrite replace_first_ids.
  - rewrite deleteTask_fulfilled_fields. simpl.
    eapply sublist_NoDup; [exact Hs | apply fmap_sublist, sublist_filter].
Qed.

Lemma ids_stay_unique_witness :
  NoDup (ids state_two_tasks)
  ∧ brings_no_duplicate state_two_tasks
      (fulfilled (createTask_payload (sample_task "n")))
  ∧ NoDup (ids (reducer state_two_tasks
                  (fulfilled (createTask_payload (sample_task "n")))))
  ∧ ids (reducer state_two_tasks
           (fulfilled (createTask_payload (sample_task "n")))) = ["n"; "a"; "b"].
Proof.
  assert (NoDup (ids state_two_tasks)) as H1
    by (apply (bool_decide_unpack _); vm_compute; exact I).
  assert (brings_no_duplicate state_two_tasks
            (fulfilled (createTask_payload (sample_task "n")))) as H2
    by (apply (bool_decide_unpack _); vm_compute; exact I).
  split; [exact H1 | split; [exact H2 | split; [| reflexivity]]].
  exact (ids_stay_unique state_two_tasks _ H1 H2).
Defined.

End TaskSliceMore.

(** ** The filter controls of the tasks list *)

Section Filters.

Import taskSlice Partial TasksList tasksService.

Lemma getTasks_params_filters (f : TaskFilters) :
  getTasks_params (Some f)
  = (entry "completed" (JS.String_bool <$> f_completed f)
     ++ entry "priority" (Priority_str <$> f_priority f)
     ++ entry "page" (number_entry (f_page f))
     ++ entry "limit" (number_entry (f_limit f)))%list.
Proof. apply getTasks_params_entries. Qed.

(** The reducer's [setFilters] on a filter object is the spread of the
    literal that names its defined fields. *)
Lemma setFilters_of_filters (s : TaskState) (f : TaskFilters) :
  reducer s (taskSlice.setFilters f) = Partial.setFilters (of_filters f) s.
Proof.
  simpl. unfold Partial.setFilters. f_equal.
  unfold taskSlice.spread, Partial.spread, of_filters. simpl.
  by destruct (f_completed f), (f_priority f), (f_page f), (f_limit f).
Qed.

(** X10: [setFilters] touches the filters only; with a literal without
    keys it changes nothing, and two [setFilters] in a row amount to one
    with the second literal spread over the first, so for each key the
    last literal that names it decides, an [undefined] value included. *)
Theorem setFilters_merges (s : TaskState) (b c : FiltersPatch) :
  Partial.setFilters c (Partial.setFilters b s)
  = Partial.setFilters (spread_patch b c) s
  ∧ Partial.setFilters no_keys s = s
  ∧ tasks (Partial.setFilters b s) = tasks s
  ∧ currentTask (Partial.setFilters b s) = currentTask s
  ∧ isLoading (Partial.setFilters b s) = isLoading s
  ∧ error (Partial.setFilters b s) = error s
  ∧ pagination (Partial.setFilters b s) = pagination s.
Proof.
  split; [| split; [| done]].
  - unfold Partial.setFilters, set_filters. simpl. f_equal.
    unfold Partial.spread, spread_patch. simpl.
    by destruct (p_completed c), (p_priority c), (p_page c), (p_limit c).
  - unfold Partial.setFilters, set_filters, Partial.spread. simpl.
    by destruct s as [? ? ? ? [] ?].
Qed.

(** X11: After Clear, whatever the state was, the status and priority
    filters are unset and the page filter is 1, so the next list request
    carries page=1, the limit parameter it would have carried before, and
    nothing else; tasks and pagination are untouched, and a second Clear
    changes nothing. *)
Theorem clearFilters_resets (s : TaskState) :
  getTasks_params (Some (filters (clearFilters s)))
  = ("page", "1") :: entry "limit" (number_entry (f_limit (filters s)))
  ∧ f_completed (filters (clearFilters s)) = None
  ∧ f_priority (filters (clearFilters s)) = None
  ∧ tasks (clearFilters s) = tasks s
  ∧ pagination (clearFilters s) = pagination s
  ∧ clearFilters (clearFilters s) = clearFilters s.
Proof.
  split; [| done]. by rewrite getTasks_params_filters.
Qed.

(** X12: Choosing a status or a priority, or choosing "all" for one of
    them, sets exactly that filter (to unset, for "all"), keeps the other
    one and the limit, and always sends the list back to page 1: the next
    request carries page=1. *)
Theorem handleFilterChange_resets_page (s : TaskState) (c : FilterChange) :
  ("page", "1") ∈ getTasks_params (Some (filters (handleFilterChange c s)))
  ∧ f_page (filters (handleFilterChange c s)) = Some 1
  ∧ f_limit (filters (handleFilterChange c s)) = f_limit (filters s)
  ∧ match c with
    | change_completed value =>
        f_completed (filters (handleFilterChange c s)) = value
        ∧ f_priority (filters (handleFilterChange c s)) = f_priority (filters s)
    | change_priority value =>
        f_priority (filters (handleFilterChange c s)) = value
        ∧ f_completed (filters (handleFilterChange c s)) = f_completed (filters s)
    end.
Proof.
  split.
  - rewrite getTasks_params_filters. rewrite !elem_of_app, !elem_of_entry.
    right; right; left. by destruct c.
  - by destruct c.
Qed.

(** X13: The status select and the filter agree: picking the item a
    filter value is shown as (all, true or false) stores that very value,
    and the select then shows the picked item. *)
Theorem completed_select_round_trip (s : TaskState) (o : option bool) :
  f_completed (filters (handleFilterChange
     (completed_onValueChange (JS.or_else (JS.String_bool <$> o) "all")) s)) = o
  ∧ completed_value (filters (handleFilterChange
       (completed_onValueChange (JS.or_else (JS.String_bool <$> o) "all")) s))
    = JS.or_else (JS.String_bool <$> o) "all".
Proof. by destruct o as [[]|]. Qed.

(** X14: While the server-reported page lies between 1 and the number of
    pages, an enabled Previous or Next button never leaves that range:
    Previous asks for a page that is at least 1 and Next for one that is
    at most the last, and the next list request carries that page. *)
Theorem pagination_buttons_in_range (s : TaskState) :
  1 ≤ page (pagination s) ≤ totalPages (pagination s) →
  (previous_disabled (pagination s) = true
   ∨ 1 ≤ page (pagination s) - 1 ≤ totalPages (pagination s)
     ∧ ("page", JS.String_number (page (pagination s) - 1))
         ∈ getTasks_params (Some (filters (previous_click s))))
  ∧ (next_disabled (pagination s) = true
     ∨ 1 ≤ page (pagination s) + 1 ≤ totalPages (pagination s)
       ∧ ("page", JS.String_number (page (pagination s) + 1))
           ∈ getTasks_params (Some (filters (next_click s)))).
Proof.
  intros Hrange. unfold previous_disabled, next_disabled.
  assert (∀ n, n ≠ 0 →
            ("page", JS.String_number n)
              ∈ getTasks_params (Some (filters (updateFilters (go_to_page n) s))))
    as Hsent.
  { intros n Hn. rewrite getTasks_params_filters.
    rewrite !elem_of_app, !elem_of_entry. right; right; left.
    split; [done|]. apply number_entry_Some. exists n. done. }
  split.
  - destruct (Z.eqb_spec (page (pagination s)) 1); [by left | right].
    split; [lia|]. apply Hsent. lia.
  - destruct (Z.eqb_spec (page (pagination s)) (totalPages (pagination s)));
      [by left | right].
    split; [lia|]. apply Hsent. lia.
Qed.

Lemma pagination_buttons_in_range_witness :
  1 ≤ page (pagination state_page_2_of_5)
    ≤ totalPages (pagination state_page_2_of_5)
  ∧ ("page", "1") ∈ getTasks_params (Some (filters (previous_click state_page_2_of_5)))
  ∧ ("page", "3") ∈ getTasks_params (Some (filters (next_click state_page_2_of_5))).
Proof.
  assert (1 ≤ page (pagination state_page_2_of_5)
            ≤ totalPages (pagination state_page_2_of_5)) as H
    by (simpl; lia).
  split; [exact H|].
  destruct (pagination_buttons_in_range state_page_2_of_5 H) as [Hp Hn].
  split.
  - destruct Hp as [Hp | [_ Hp]]; [discriminate Hp | exact Hp].
  - destruct Hn as [Hn | [_ Hn]]; [discriminate Hn | exact Hn].
Defined.

End Filters.

(** ** A request from dispatch to settlement *)

Section Lifecycle.

Import taskSlice.

(** X16: A request that fails changes nothing of the tasks, the
    selection, the filters and the pagination; the store stops loading,
    and exactly one notification is shown.  When the server sent a
    non-empty message, the stored error and the notification are both that
    message; otherwise the store holds the thunk's own fallback text while
    the notification reads "Something went wrong". *)
Theorem failed_reports_and_keeps_data (k : Thunk) (err : AxiosError)
    (env : Env) (s : TaskState) :
  tasks (lifecycle.failed k err env s).2 = tasks s
  ∧ currentTask (lifecycle.failed k err env s).2 = currentTask s
  ∧ filters (lifecycle.failed k err env s).2 = filters s
  ∧ pagination (lifecycle.failed k err env s).2 = pagination s
  ∧ isLoading (lifecycle.failed k err env s).2 = false
  ∧ match response err ≫= message with
    | Some (String c m) =>
        error (lifecycle.failed k err env s).2 = Some (String c m)
        ∧ toasts (lifecycle.failed k err env s).1
          = (toasts env ++ [String c m])%list
    | _ =>
        error (lifecycle.failed k err env s).2 = Some (thunks.fallback k)
        ∧ toasts (lifecycle.failed k err env s).1
          = (toasts env ++ ["Something went wrong"])%list
    end.
Proof.
  unfold lifecycle.failed, api.response_rejected, api.error_message. simpl.
  repeat (split; [done|]).
  destruct (response err ≫= message) as [[|c m]|]; simpl;
    (split; [done|]; f_equal; by destruct (api.is_401 err), (window env)).
Qed.

Lemma or_else_nonempty a b : b ≠ "" → JS.or_else a b ≠ "".
Proof. intros Hb. by destruct a as [[|c m]|]. Qed.

(** X25: No failure is reported with an empty text: the notification of
    the response handling and the error a failed thunk stores are never
    the empty string, whatever the server sent, an empty message
    included. *)
Theorem failure_texts_never_empty (k : Thunk) (err : AxiosError) (s : TaskState) :
  api.error_message err ≠ ""
  ∧ error (reducer s (thunks.on_error k err)) ≠ Some ""
  ∧ error (reducer s (thunks.on_error k err)) ≠ None.
Proof.
  split; [by apply or_else_nonempty|]. simpl. split; [|done].
  intros [= H]. revert H. apply or_else_nonempty. by destruct k.
Qed.

End Lifecycle.

(** ** More on the HTTP client adapters *)

Section AdaptersMore.

(** X17: The response handling of [api] never swallows an error and
    notifies exactly once: every error, with or without a response, comes
    back rejected and unchanged, one notification is appended, and local
    storage and the location are left alone unless the status is 401. *)
Theorem response_rejected_propagates (env : Env) (err : AxiosError) :
  (api.response_rejected env err).2 = Rejected err
  ∧ toasts (api.response_rejected env err).1
    = (toasts env ++ [api.error_message err])%list
  ∧ (window (api.response_rejected env err).1 = window env
     ∨ status <$> response err = Some 401).
Proof.
  unfold api.response_rejected, api.is_401.
  split; [done|]. split.
  - by destruct (response err) as [r|]; simpl; [destruct (status r =? 401)|];
      destruct (window env).
  - destruct (response err) as [r|]; simpl; [|by left].
    destruct (Z.eqb_spec (status r) 401) as [->|]; [by right | by left].
Qed.

(** X18: After [api] has handled a 401, the requests it builds carry no
    Authorization header, in any environment. *)
Theorem request_after_401_unauthenticated (env : Env) (err : AxiosError)
    (method url : string) (data : option string) :
  status <$> response err = Some 401 →
  headers (api.build_request (api.response_rejected env err).1 method url data)
    !! "Authorization" = None.
Proof.
  intros H401. unfold api.build_request.
  rewrite build_request_authorization.
  assert (api.is_401 err = true) as E.
  { unfold api.is_401. destruct (response err) as [r|]; [|done].
    simpl in H401. injection H401 as ->. done. }
  unfold api.response_rejected, stored. rewrite E. simpl.
  destruct (window env) as [w|] eqn:Hw; simpl; rewrite Hw; [|done].
  unfold getItem, api.tokenKey. simpl. by rewrite lookup_delete_eq.
Qed.

Lemma request_after_401_unauthenticated_witness :
  status <$> response error_401 = Some 401
  ∧ headers (api.build_request (env_browser "token" "abc") "GET" "/api/tasks?" None)
      !! "Authorization" = Some "Bearer abc"
  ∧ headers (api.build_request
               (api.response_rejected (env_browser "token" "abc") error_401).1
               "GET" "/api/tasks?" None) !! "Authorization" = None.
Proof.
  split; [reflexivity|]. split; [vm_compute; reflexivity|].
  exact (request_after_401_unauthenticated (env_browser "token" "abc")
           error_401 "GET" "/api/tasks?" None eq_refl).
Defined.

(** X19: The request interceptor changes nothing of a request but its
    Authorization header: method, URL, body and every other header pass
    through, and running it twice is the same as running it once. *)
Theorem request_interceptor_only_authorization (tokenKey : string) (env : Env)
    (config : Config) :
  method (axios.request_interceptor tokenKey env config) = method config
  ∧ url (axios.request_interceptor tokenKey env config) = url config
  ∧ data (axios.request_interceptor tokenKey env config) = data config
  ∧ delete "Authorization" (headers (axios.request_interceptor tokenKey env config))
    = delete "Authorization" (headers config)
  ∧ axios.request_interceptor tokenKey env
      (axios.request_interceptor tokenKey env config)
    = axios.request_interceptor tokenKey env config.
Proof.
  unfold axios.request_interceptor.
  destruct (window env) as [w|]; [|done].
  destruct (getItem tokenKey w) as [t|]; [|done].
  destruct (JS.truthy_string t); [|done].
  simpl. repeat (split; [done|]). split.
  - by rewrite delete_insert_eq.
  - unfold set_header. simpl. by rewrite insert_insert_eq.
Qed.

(** X20: A stored non-empty token overrides an Authorization header the
    caller put on the request; with no token, or an empty one, or no
    window, the caller's header (or its absence) is kept. *)
Theorem request_interceptor_overrides_caller (tokenKey : string) (env : Env)
    (config : Config) :
  headers (axios.request_interceptor tokenKey env config) !! "Authorization"
  = match stored tokenKey env with
    | Some (String c t) => Some ("Bearer " +:+ String c t)
    | _ => headers config !! "Authorization"
    end.
Proof.
  unfold axios.request_interceptor, stored.
  destruct (window env) as [w|]; simpl; [|done].
  destruct (getItem tokenKey w) as [[|c t]|]; simpl; [done| |done].
  apply lookup_insert_eq.
Qed.

(** X21: A session of [apiClient] in a browser: once the login page has
    stored a non-empty token, every request carries it as a bearer
    credential; [logOut] then succeeds, returns the auth store to its
    initial state, and from then on every request omits the header. *)
Theorem apiClient_session (w : Window) (ts : list string) (c : ascii)
    (t : string) (st : authSlice.AuthState) (method url : string)
    (data : option string) :
  let env := authSlice.onSuccess_store (String c t)
               {| window := Some w; toasts := ts |} in
  headers (apiClient.build_request env method url data) !! "Authorization"
    = Some ("Bearer " +:+ String c t)
  ∧ ∃ env', authSlice.logOut env st = Some (env', authSlice.initialState)
      ∧ headers (apiClient.build_request env' method url data)
          !! "Authorization" = None.
Proof.
  simpl. unfold apiClient.build_request. split.
  - rewrite build_request_authorization. unfold stored, getItem. simpl.
    by rewrite lookup_insert_eq.
  - eexists. split; [reflexivity|].
    by rewrite build_request_authorization, stored_removeItem.
Qed.

(** X22: The two adapters do not share their storage key.  What the login
    page stores and what [logOut] removes is "authToken", which [api]
    never reads: neither changes what [api] sends.  What [api] removes
    on a 401 is "token", so the token [apiClient] reads survives it. *)
Theorem adapters_keys_disjoint (env : Env) (tok : string) (err : AxiosError) :
  stored api.tokenKey (authSlice.onSuccess_store tok env) = stored api.tokenKey env
  ∧ stored api.tokenKey (with_window (removeItem "authToken") env)
    = stored api.tokenKey env
  ∧ stored apiClient.tokenKey (api.response_rejected env err).1
    = stored apiClient.tokenKey env.
Proof.
  split; [| split].
  - unfold stored, authSlice.onSuccess_store, with_window, getItem. simpl.
    destruct (window env) as [w|]; simpl; [|done]. by rewrite lookup_insert_ne.
  - by apply stored_removeItem_ne.
  - unfold api.response_rejected, stored, getItem.
    destruct (api.is_401 err); simpl; [|done].
    destruct (window env) as [w|] eqn:Hw; simpl; rewrite Hw; [|done].
    simpl. by rewrite lookup_delete_ne.
Qed.

End AdaptersMore.

(** ** Route protection *)

Section Middleware.

Import middleware.

(** X23: The middleware redirects only to "/login", and "/login" is never
    redirected itself, whatever the cookies: a redirection is followed by
    no second one. *)
Theorem middleware_no_redirect_loop (request : NextRequest) :
  match middleware request with
  | redirect path =>
      path = "/login"
      ∧ ∀ ck, middleware {| cookies := ck; pathname := path |} = next
  | next => True
  end.
Proof.
  unfold middleware at 1.
  destruct (no_token request && String.prefix "/dashboard" (pathname request));
    [|done].
  split; [done|]. intros ck. unfold middleware. simpl.
  by rewrite andb_false_r.
Qed.

(** X24: With the matcher in place: a request with a non-empty authToken
    cookie passes for every path.  Without the cookie, or with an empty
    one, a request is redirected to "/login" exactly when the matcher
    selects its path and the path starts with "/dashboard"; so every
    selected path that extends "/dashboard" is redirected, and a path the
    matcher does not select passes whatever it looks like. *)
Theorem routed_guards_dashboard (matcher : string → bool)
    (ck : gmap string string) (c : ascii) (t path suffix : string) :
  routing.routed matcher
    {| cookies := <["authToken" := String c t]> ck; pathname := path |} = next
  ∧ routing.routed matcher
      {| cookies := delete "authToken" ck; pathname := "/dashboard" +:+ suffix |}
    = (if matcher ("/dashboard" +:+ suffix) then redirect "/login" else next)
  ∧ routing.routed matcher
      {| cookies := <["authToken" := ""]> ck; pathname := "/dashboard" +:+ suffix |}
    = (if matcher ("/dashboard" +:+ suffix) then redirect "/login" else next)
  ∧ (routing.routed matcher
       {| cookies := delete "authToken" ck; pathname := path |} = redirect "/login"
     ↔ matcher path = true ∧ String.prefix "/dashboard" path = true).
Proof.
  unfold routing.routed, middleware, no_token. simpl.
  rewrite lookup_insert_eq, lookup_delete_eq, lookup_insert_eq. simpl.
  assert (String.prefix "" ("" +:+ suffix) = true) as -> by (by destruct suffix).
  split; [by destruct (matcher path)|]. split; [done|]. split; [done|].
  destruct (matcher path), (String.prefix "/dashboard" path); naive_solver.
Qed.

End Middleware.

(** ** The tasks service over numbers as they are *)

Section NumbersService.

Import numbers.

Context {N : Type} `{Number N}.

Lemma getTasks_params_any_entries (filters : option (Filters N)) :
  numbers.getTasks_params filters
  = (entry "completed" (JS.String_bool <$> (filters ≫= n_completed))
     ++ entry "priority" (Priority_str <$> (filters ≫= n_priority))
     ++ entry "page" (sent_number (filters ≫= n_page))
     ++ entry "limit" (sent_number (filters ≫= n_limit)))%list.
Proof.
  unfold numbers.getTasks_params, sent_number, URLSearchParams.append.
  destruct (filters ≫= n_completed) as [c|];
    destruct (filters ≫= n_priority) as [p|];
    rewrite ?Priority_str_truthy;
    destruct (filters ≫= n_page) as [n|]; simpl;
    try destruct (ToBoolean n);
    destruct (filters ≫= n_limit) as [m|]; simpl;
    try destruct (ToBoolean m); reflexivity.
Qed.

Lemma sent_number_Some (n : option N) v :
  sent_number n = Some v ↔ ∃ x, n = Some x ∧ ToBoolean x = true ∧ v = ToString x.
Proof.
  unfold sent_number. destruct n as [x|]; simpl.
  - destruct (ToBoolean x) eqn:E; split.
    + intros [= <-]. by exists x.
    + by intros (x0 & [= <-] & _ & ->).
    + done.
    + intros (x0 & [= <-] & Hx & _). congruence.
  - split; [done|]. by intros (x0 & [=] & _).
Qed.

Lemma sent_number_truthy_only (n : option N) :
  sent_number n = ToString <$> truthy_only n.
Proof.
  unfold sent_number, truthy_only. destruct n as [v|]; simpl; [|done].
  by destruct (ToBoolean v).
Qed.

Lemma truthy_only_truthy (n : option N) v :
  truthy_only n = Some v → ToBoolean v = true.
Proof.
  unfold truthy_only. destruct n as [x|]; simpl; [|done].
  destruct (ToBoolean x) eqn:E; [|done]. by intros [= <-].
Qed.

(** C4 (amended): For every filter object (also an absent one) and
    whatever numbers page and limit hold, the pairs [getTasks] puts in the
    query are exactly: completed with its boolean spelled out when
    completed is set; priority with its name when priority is set; page,
    respectively limit, with the text [String] gives for it when that
    field is set to a truthy number, that is to any number but 0 and NaN.
    No name occurs twice, and an unset field is never sent. *)
Theorem getTasks_sends_set_and_truthy (filters : option (Filters N)) :
  (∀ name value,
      (name, value) ∈ numbers.getTasks_params filters ↔
        (name = "completed"
           ∧ ∃ b, filters ≫= n_completed = Some b ∧ value = JS.String_bool b)
        ∨ (name = "priority"
           ∧ ∃ p, filters ≫= n_priority = Some p ∧ value = Priority_str p)
        ∨ (name = "page"
           ∧ ∃ n, filters ≫= n_page = Some n
                  ∧ ToBoolean n = true ∧ value = ToString n)
        ∨ (name = "limit"
           ∧ ∃ n, filters ≫= n_limit = Some n
                  ∧ ToBoolean n = true ∧ value = ToString n))
  ∧ NoDup (URLSearchParams.names (numbers.getTasks_params filters)).
Proof.
  rewrite getTasks_params_any_entries. split.
  - intros name value.
    rewrite !elem_of_app, !elem_of_entry, !sent_number_Some, !fmap_Some.
    naive_solver.
  - unfold URLSearchParams.names. rewrite !fmap_app.
    fold (URLSearchParams.names (entry "completed" (JS.String_bool <$> (filters ≫= n_completed)))).
    fold (URLSearchParams.names (entry "priority" (Priority_str <$> (filters ≫= n_priority)))).
    fold (URLSearchParams.names (entry "page" (sent_number (filters ≫= n_page)))).
    fold (URLSearchParams.names (entry "limit" (sent_number (filters ≫= n_limit)))).
    rewrite !names_entry.
    destruct (JS.String_bool <$> _), (Priority_str <$> _),
      (sent_number (filters ≫= n_page)), (sent_number (filters ≫= n_limit));
      simpl; repeat (apply NoDup_cons; split; [set_solver|]); apply NoDup_nil_2.
Qed.

(** X2: Provided [String] tells truthy numbers apart, two filters lead to
    the same query parameters exactly when they agree after an absent
    filter object is read as the empty one and a falsy page or limit (0 or
    NaN) as an unset one. *)
Theorem getTasks_params_same_iff (f g : option (Filters N)) :
  (∀ a b : N, ToBoolean a = true → ToBoolean b = true →
              ToString a = ToString b → a = b) →
  numbers.getTasks_params f = numbers.getTasks_params g
  ↔ effective f = effective g.
Proof.
  intros Hinj.
  assert (∀ x y : option N,
            ToString <$> truthy_only x = ToString <$> truthy_only y →
            truthy_only x = truthy_only y) as Hnum.
  { intros x y Hxy.
    destruct (truthy_only x) as [a|] eqn:Ea, (truthy_only y) as [b|] eqn:Eb;
      simpl in Hxy; try done.
    injection Hxy as Hab. f_equal.
    apply Hinj; [by eapply truthy_only_truthy..|done]. }
  rewrite !getTasks_params_any_entries, !sent_number_truthy_only.
  unfold effective. split.
  - intros (Hc & Hp & Hpg & Hl)%entries_inj. f_equal.
    + eapply option_fmap_inj', Hc. apply String_bool_inj.
    + eapply option_fmap_inj', Hp. apply Priority_str_inj.
    + by apply Hnum.
    + by apply Hnum.
  - intros [= -> -> -> ->]. done.
Qed.

End NumbersService.

(** The service on [TaskFilters] is the service over the integers. *)
Lemma getTasks_params_integers (filters : option TaskFilters) :
  tasksService.getTasks_params filters
  = numbers.getTasks_params (numbers.of_TaskFilters <$> filters).
Proof. by destruct filters. Qed.

Lemma integers_String_inj (a b : Z) :
  numbers.ToBoolean a = true → numbers.ToBoolean b = true →
  numbers.ToString a = numbers.ToString b → a = b.
Proof. intros _ _. apply pretty_Z_inj. Qed.

Lemma getTasks_params_same_iff_witness :
  (∀ a b : Z, numbers.ToBoolean a = true → numbers.ToBoolean b = true →
              numbers.ToString a = numbers.ToString b → a = b)
  ∧ effective (Some filters_page_0) = effective (Some filters_no_page)
  ∧ numbers.getTasks_params (Some filters_page_0)
    = numbers.getTasks_params (Some filters_no_page).
Proof.
  split; [exact integers_String_inj|]. split; [reflexivity|].
  exact (proj2 (getTasks_params_same_iff (Some filters_page_0)
                  (Some filters_no_page) integers_String_inj) eq_refl).
Defined.

(** ** The task store as it runs *)

Section Runtime.

Import runtime.

(** On the states and payloads the types declare, the running store does
    what the typed reducer does, and never throws. *)
Lemma runtime_refines_declared (s : TaskState) (a : taskSlice.Action) :
  reducer (embed s) (lift a) = Some (embed (taskSlice.reducer s a)).
Proof.
  destruct a as [f | | | k | [r | t | t | t | id] | k msg]; simpl; try done.
  - unfold updateTask_fulfilled, taskSlice.updateTask_fulfilled. simpl.
    destruct (negb (taskSlice.findIndex _ _ =? -1)); simpl;
      unfold current_has_id, taskSlice.current_has_id; simpl;
      (destruct (currentTask s) as [c|]; simpl;
       [destruct (taskSlice.has_id _ c)|]; done).
  - unfold deleteTask_fulfilled, taskSlice.deleteTask_fulfilled. simpl.
    unfold current_has_id, taskSlice.current_has_id. simpl.
    destruct (currentTask s) as [c|]; simpl;
      [destruct (taskSlice.has_id _ c)|]; done.
Qed.

(** C7: The claim asks that every fulfilled transition clear the loading
    flag, merge its result, and be total.  The code breaks this after any
    fetch of the list that succeeds: the [fetchTasks] thunk returns the
    AxiosResponse, so [state.tasks] becomes the response body, an object
    that is no array; from then on the fulfilled reducers of create,
    update and delete throw on [unshift], [findIndex] and [filter], the
    store keeps the pending state, and the loading flag stays set. *)
Theorem fulfilled_after_fetch_throws (s : State) (response : AxiosResponse)
    (task : Task) (id : string) :
  let fetched :=
    succeeded (fetchTasks_payload (returned_by_fetchTasks response)) s in
  s_tasks fetched = object (ar_data response)
  ∧ s_isLoading fetched = false
  ∧ reducer (dispatch fetched (pending taskSlice.createTask))
      (fulfilled (createTask_payload task)) = None
  ∧ reducer (dispatch fetched (pending taskSlice.updateTask))
      (fulfilled (updateTask_payload task)) = None
  ∧ reducer (dispatch fetched (pending taskSlice.deleteTask))
      (fulfilled (deleteTask_payload id)) = None
  ∧ s_isLoading (succeeded (createTask_payload task) fetched) = true
  ∧ s_isLoading (succeeded (updateTask_payload task) fetched) = true
  ∧ s_isLoading (succeeded (deleteTask_payload id) fetched) = true.
Proof. repeat split. Qed.

(** C9, as worded, fails: nothing is derived.  After the fetch of a
    response with total 47, limit 10 and five tasks has succeeded, the
    total-pages value in state is undefined, because the payload the thunk
    hands over has no such property; and it is undefined just as well for
    a payload that carries total 47 and limit 10 themselves but no
    totalPages. *)
Lemma totalPages_is_not_derived :
  r_total body_47_by_10 = 47 ∧ r_limit body_47_by_10 = 10
  ∧ v_totalPages (s_pagination
      (succeeded (fetchTasks_payload (returned_by_fetchTasks response_47_by_10))
         runtime_initialState)) ≠ Some 5
  ∧ fp_total payload_without_totalPages = Some 47
  ∧ fp_limit payload_without_totalPages = Some 10
  ∧ v_totalPages (s_pagination
      (succeeded (fetchTasks_payload payload_without_totalPages)
         runtime_initialState)) ≠ Some 5.
Proof. repeat split; vm_compute; congruence. Qed.

(** C9 (amended): After [fetchTasks.fulfilled] the total-pages value held
    in state is the [totalPages] property of the action's payload, taken
    as it is, undefined when the payload has none; page, limit and total
    are taken the same way.  Nothing is computed from total and limit: the
    state holds 5 exactly when that property is 5, whatever total and
    limit are. *)
Theorem totalPages_copied_from_payload (s : State) (p : FetchPayload) :
  v_totalPages (s_pagination (dispatch s (fulfilled (fetchTasks_payload p))))
    = fp_totalPages p
  ∧ v_total (s_pagination (dispatch s (fulfilled (fetchTasks_payload p))))
    = fp_total p
  ∧ v_limit (s_pagination (dispatch s (fulfilled (fetchTasks_payload p))))
    = fp_limit p
  ∧ v_page (s_pagination (dispatch s (fulfilled (fetchTasks_payload p))))
    = fp_page p
  ∧ (v_totalPages (s_pagination (dispatch s (fulfilled (fetchTasks_payload p))))
       = Some 5 ↔ fp_totalPages p = Some 5).
Proof. repeat split; done. Qed.

(** X15: A request that succeeds always leaves the store without error.
    It leaves it not loading when the request is a fetch or [state.tasks]
    is an array; a create, update or delete that succeeds while
    [state.tasks] is no array, as after a fetch of the list, throws in its
    reducer and leaves the store loading. *)
Theorem succeeded_clears_error (p : Payload) (s : State) :
  s_error (succeeded p s) = None
  ∧ s_filters (succeeded p s) = s_filters s
  ∧ s_isLoading (succeeded p s)
    = needs_array p && negb (is_array (s_tasks s)).
Proof.
  unfold succeeded, dispatch.
  destruct p as [q | t | t | t | id]; simpl; try done.
  - unfold createTask_fulfilled. simpl. by destruct (s_tasks s).
  - unfold updateTask_fulfilled. simpl. destruct (s_tasks s) as [l|b]; [|done].
    simpl. destruct (negb (taskSlice.findIndex _ _ =? -1)); simpl;
      by destruct (current_has_id _ _).
  - unfold deleteTask_fulfilled. simpl. destruct (s_tasks s) as [l|b]; [|done].
    simpl. by destruct (current_has_id _ _).
Qed.

End Runtime.
